(** * psychsim.pwl.plane: hyperplane tests over keyed vectors

    A shallow embedding of [src/pwl/plane.py] (class [KeyedPlane] and the
    row factories below it) together with the properties its specification
    states about it.

    Conventions of the embedding.
    - The module is Python 2 code (it calls [cmp], the builtin [reduce] and
      [dict.has_key]); mixed-type comparisons follow CPython 2, where a number
      is smaller than any object that is not a number and objects of other
      types are ordered by type name.
    - Python floats (and ints used as thresholds) are exact rationals [Q];
      rounding is not modelled.  The statements about comparisons therefore
      repeat the tests the code computes ([total + epsilon > threshold])
      and rest on no identity of exact arithmetic.
    - A call either returns a value or raises: [Res A].
    - [KeyedVector], [Distribution], the XML DOM and the builtins [str],
      [float], [int] and [eval] live outside this file of the repository; what
      the code needs of them is a parameter of the section [Source]. *)

From Stdlib Require Import QArith Qabs Lqa ZArith String.
From Stdlib Require DecimalString.
From stdpp Require Import base option list gmap strings.

Local Open Scope string_scope.
Set Warnings "-register-all".

(** ** Results of calls *)

Inductive Exn :=
| ValueError | AssertionError | AttributeError | NameError | TypeError
| SyntaxError.

Inductive Res (A : Type) :=
| Ret (a : A)
| Raise (e : Exn).
Arguments Ret {A} a.
Arguments Raise {A} e.

Definition bind {A B : Type} (m : Res A) (f : A -> Res B) : Res B :=
  match m with
  | Ret a => f a
  | Raise e => Raise e
  end.

Notation "x <- m ;; k" := (bind m (fun x => k))
  (at level 100, m at next level, right associativity).

(** [for x in l: ...] where the body may raise: the first failure aborts. *)
Fixpoint forM {A B : Type} (f : A -> Res B) (l : list A) : Res (list B) :=
  match l with
  | [] => Ret []
  | x :: l' => y <- f x ;; ys <- forM f l' ;; Ret (y :: ys)
  end.

(** ** Numbers *)

Definition Qltb (x y : Q) : bool := negb (Qle_bool y x).

(** ** Data model *)

(** [KeyedVector]: a mapping from keys to weights with its tolerance. *)
Record KeyedVector := {
  weights : gmap string Q;
  epsilon : Q
}.

(** A threshold is a number, a symbolic expression or a list of thresholds. *)
Inductive Threshold :=
| TNum (q : Q)
| TStr (s : string)
| TList (l : list Threshold).

(** The comparison marker: an [int] (1 above, -1 below, 0 equal) or a [str]
    such as ['switch']. *)
Inductive Comparison :=
| CInt (z : Z)
| CStr (s : string).

Definition Plane : Type := KeyedVector * Threshold * Comparison.

(** An instance of [KeyedPlane].  [planes], [_string], [_keys] and
    [isConjunction] are the attributes [__init__] assigns.  The methods
    [compare] and [minimize] read [self.vector], [self.threshold] and
    [self.comparison]; these are present on an instance only when something
    outside the class assigned them, which the three [attr_] fields record
    ([None]: the attribute does not exist). *)
Record KeyedPlane := {
  planes : list Plane;
  _string : option string;
  _keys : option (gset string);
  isConjunction : bool;
  attr_vector : option KeyedVector;
  attr_threshold : option Threshold;
  attr_comparison : option Comparison
}.

(** [obj.isConjunction = b] *)
Definition set_isConjunction (b : bool) (t : KeyedPlane) : KeyedPlane :=
  {| planes := planes t; _string := _string t; _keys := _keys t;
     isConjunction := b;
     attr_vector := attr_vector t; attr_threshold := attr_threshold t;
     attr_comparison := attr_comparison t |}.

(** Attribute access on an instance. *)
Definition getattr {A : Type} (field : KeyedPlane -> option A)
    (self : KeyedPlane) : Res A :=
  match field self with
  | Some a => Ret a
  | None => Raise AttributeError
  end.

(** The DOM nodes the serializer handles: elements with a tag, string
    attributes and children; every other kind of node is [OtherNode]. *)
Inductive Node :=
| Element (tagName : string) (attributes : gmap string string)
    (childNodes : list Node)
| OtherNode.

Record Document := { documentElement : Node }.

Definition setAttribute (name value : string) (n : Node) : Node :=
  match n with
  | Element tag attrs ch => Element tag (<[name := value]> attrs) ch
  | OtherNode => OtherNode
  end.

(** [node.getAttribute(name)] gives the empty string for a missing one. *)
Definition getAttribute (name : string) (attrs : gmap string string)
    : string :=
  default "" (attrs !! name).

(** An entry of the sequence passed to the constructor, by its length. *)
Inductive Entry :=
| Entry0
| Entry1 (v : KeyedVector)
| Entry2 (v : KeyedVector) (t : Threshold)
| Entry3 (v : KeyedVector) (t : Threshold) (c : Comparison)
| EntryLong.

Inductive InitArg :=
| FromNode (n : Node)
| FromVector (v : KeyedVector) (threshold : option Threshold)
    (comparison : option Comparison)
| FromList (l : list Entry).

(** What [plane * vector] may give. *)
Definition Distribution : Type := list (Q * Q).

Inductive Total :=
| TotNum (x : Q)
| TotDist (d : Distribution).

(** The argument of [evaluate]: a float, or anything else. *)
Inductive Arg (State : Type) :=
| ArgFloat (x : Q)
| ArgVector (s : State).
Arguments ArgFloat {State} x.
Arguments ArgVector {State} s.

(** ** Python 2 comparisons on the values above *)

Definition gt_zero (c : Comparison) : bool :=
  match c with
  | CInt z => (0 <? z)%Z
  | CStr _ => true
  end.

Definition lt_zero (c : Comparison) : bool :=
  match c with
  | CInt z => (z <? 0)%Z
  | CStr _ => false
  end.

Definition eq_zero (c : Comparison) : bool :=
  match c with
  | CInt z => (z =? 0)%Z
  | CStr _ => false
  end.

(** [x > threshold] and [x < threshold] for a number [x]. *)
Definition num_gt (x : Q) (t : Threshold) : bool :=
  match t with
  | TNum q => Qltb q x
  | TStr _ | TList _ => false
  end.

Definition num_lt (x : Q) (t : Threshold) : bool :=
  match t with
  | TNum q => Qltb x q
  | TStr _ | TList _ => true
  end.

(** [a - b] on thresholds: numbers only. *)
Definition sub_threshold (a b : Threshold) : Res Q :=
  match a, b with
  | TNum x, TNum y => Ret (x - y)%Q
  | _, _ => Raise TypeError
  end.

(** [reduce(operator.or_, l)] without an initial value. *)
Definition reduce_or (l : list bool) : Res bool :=
  match l with
  | [] => Raise TypeError
  | b :: bs => Ret (fold_left orb bs b)
  end.

Definition Z_of_comparison (c : comparison) : Z :=
  match c with
  | Lt => (-1)%Z
  | Eq => 0%Z
  | Gt => 1%Z
  end.

(** [cmp(a, b)] as a [comparison]. *)
Fixpoint py_cmp (a b : Threshold) : comparison :=
  match a, b with
  | TNum x, TNum y => (x ?= y)%Q
  | TNum _, _ => Lt
  | _, TNum _ => Gt
  | TList _, TStr _ => Lt
  | TStr _, TList _ => Gt
  | TStr s, TStr t => String.compare s t
  | TList l, TList m =>
      (fix go (l m : list Threshold) : comparison :=
         match l, m with
         | [], [] => Eq
         | [], _ :: _ => Lt
         | _ :: _, [] => Gt
         | x :: l', y :: m' =>
             match py_cmp x y with
             | Eq => go l' m'
             | c => c
             end
         end) l m
  end.

(** [cmp(a, b) == marker] *)
Definition cmp_is (a b : Threshold) (marker : Comparison) : bool :=
  match marker with
  | CInt z => (Z_of_comparison (py_cmp a b) =? z)%Z
  | CStr _ => false
  end.

(** ** Instances of the parameters, for the concrete scenarios *)

(** Modelled from the spec: the dot product of [KeyedVector], which is
    defined in [psychsim.pwl.vector] (the sum over the keys of the weights
    of the products of weight and state value). *)
Definition dot (w s : KeyedVector) : Q :=
  map_fold (fun k x acc => (acc + x * default 0 (weights s !! k))%Q)
    0%Q (weights w).

Definition dot_total (w s : KeyedVector) : Total := TotNum (dot w s).

(** The state [{key: x}]. *)
Definition state1 (key : string) (x : Q) : KeyedVector :=
  {| weights := {[ key := x ]}; epsilon := 0 |}.

(** A tolerance of 10^-8. *)
Definition eps8 : Q := 1 # 100000000.

(** Decimal rendering and reading of integers, and of integer-valued numbers
    the way [str] prints such a float ("5.0"); enough of [str], [float] and
    [int] for the scenarios below. *)
Definition str_int_dec (z : Z) : string :=
  DecimalString.NilZero.string_of_int (Z.to_int z).

Definition int_dec (s : string) : option Z :=
  Z.of_int <$> DecimalString.NilZero.int_of_string s.

Definition str_dec (t : Threshold) : string :=
  match t with
  | TNum q =>
      if decide (Qden q = 1%positive) then str_int_dec (Qnum q) +:+ ".0"
      else str_int_dec (Qnum q) +:+ "/" +:+ str_int_dec (Zpos (Qden q))
  | TStr s => s
  | TList _ => "[...]"
  end.

Definition float_dec (s : string) : option Q :=
  match index 0 "." s with
  | Some i =>
      if decide (substring i (String.length s - i) s = ".0") then
        inject_Z <$> int_dec (substring 0 i s)
      else None
  | None => inject_Z <$> int_dec s
  end.

(** A vector as an element [vector] with one child per key. *)
Definition vector_xml_dec (v : KeyedVector) : Node :=
  Element "vector" ∅
    ((fun kw : string * Q =>
        Element "entry"
          {[ "key" := fst kw; "weight" := str_dec (TNum (snd kw)) ]} [])
       <$> map_to_list (weights v)).

Definition entry_dec (n : Node) : option (string * Q) :=
  match n with
  | Element _ attrs _ =>
      match float_dec (getAttribute "weight" attrs) with
      | Some w => Some (getAttribute "key" attrs, w)
      | None => None
      end
  | OtherNode => None
  end.

Definition vector_parse_dec (eps : Q) (n : Node) : Res KeyedVector :=
  match n with
  | Element _ _ ch =>
      Ret {| weights := list_to_map (omap entry_dec ch); epsilon := eps |}
  | OtherNode => Raise AttributeError
  end.

(** [eval] in an environment that binds no name. *)
Definition eval_unbound (s : string) (table : option unit) : Res Threshold :=
  Raise NameError.

(** A vector without symbolic keys is its own resolution. *)
Definition desymbolize_id (v : KeyedVector) (table : unit) : Res KeyedVector :=
  Ret v.

(** A state that already is the distribution of the totals: every product
    with it is that distribution. *)
Definition dist_total (w : KeyedVector) (d : Distribution) : Total :=
  TotDist d.

(** A tense rewriting for the scenarios: the future version of a key is the
    key with a prime; for each key of [keyList] the weight moves from one
    version to the other. *)
Definition tense_dec (future : bool) (keyList : gset string)
    (v : KeyedVector) : KeyedVector :=
  {| weights :=
       foldr (fun k w =>
                let (from, to) :=
                  if future then (k, k +:+ "'") else (k +:+ "'", k) in
                match w !! from with
                | Some x => <[ to := x ]> (delete from w)
                | None => w
                end)
             (weights v) (elements keyList);
     epsilon := epsilon v |}.

(** [eval] on text that is no expression. *)
Definition eval_invalid (s : string) (table : option unit) : Res Threshold :=
  Raise SyntaxError.

(** A store whose objects all are the vector [{x: 1}] but for object 2,
    the vector [{y: 1}]. *)
Definition store_xy : positive -> KeyedVector :=
  fun r =>
    if Pos.eqb r 2 then {| weights := {[ "y" := 1%Q ]}; epsilon := eps8 |}
    else {| weights := {[ "x" := 1%Q ]}; epsilon := eps8 |}.

(** ** The class and the row factories *)

Section Source.

(** [KeyedVector] and its collaborators. *)
Variable State : Type.
Variable mul : KeyedVector -> State -> Total.        (* plane * vector *)
Variable vector_eq : KeyedVector -> KeyedVector -> bool.  (* == *)
Variable Table : Type.
Variable vector_desymbolize : KeyedVector -> Table -> Res KeyedVector.
Variable default_epsilon : Q.          (* epsilon of a new KeyedVector *)
Variable vector_xml : KeyedVector -> Node. (* v.__xml__().documentElement *)
Variable vector_parse : Node -> Res KeyedVector.     (* KeyedVector(node) *)

(** Builtins. *)
Variable py_eval : string -> option Table -> Res Threshold.
Variable py_str : Threshold -> string.
Variable py_str_int : Z -> string.
Variable py_float : string -> option Q.          (* None: ValueError *)
Variable py_int : string -> option Z.            (* None: ValueError *)

Definition DEFAULT_THRESHOLD : Threshold := TNum 0.
Definition DEFAULT_COMPARISON : Comparison := CInt 1.

(** [KeyedVector(weights)] *)
Definition new_vector (w : gmap string Q) : KeyedVector :=
  {| weights := w; epsilon := default_epsilon |}.

(** *** Construction *)

(** The body of the loop of [__init__] over a sequence. *)
Definition init_entry (plane : Entry) : Res Plane :=
  match plane with
  | Entry3 v t c => Ret (v, t, c)
  | Entry2 v t => Ret (v, t, DEFAULT_COMPARISON)
  | Entry1 v => Ret (v, DEFAULT_THRESHOLD, DEFAULT_COMPARISON)
  | Entry0 | EntryLong => Raise ValueError
  end.

(** The three assignments that end [__init__]. *)
Definition finish_init (ps : list Plane) : KeyedPlane :=
  {| planes := ps; _string := None; _keys := None; isConjunction := true;
     attr_vector := None; attr_threshold := None;
     attr_comparison := None |}.

Definition str_comparison (c : Comparison) : string :=
  match c with
  | CInt z => py_str_int z
  | CStr s => s
  end.

(** One iteration of the loop of [parse]; [None] for a skipped node. *)
Definition parse_node (node : Node) : Res (option Plane) :=
  match node with
  | Element tag attrs _ =>
      if decide (tag = "vector") then
        vector <- vector_parse node ;;
        threshold <-
          match py_float (getAttribute "threshold" attrs) with
          | Some q => Ret (TNum q)
          | None => py_eval (getAttribute "threshold" attrs) None
          end ;;
        let comparison :=
          match py_int (getAttribute "comparison" attrs) with
          | Some z => CInt z
          | None => CStr (getAttribute "comparison" attrs)
          end in
        Ret (Some (vector, threshold, comparison))
      else Raise AssertionError
  | OtherNode => Ret None
  end.

(** [parse]: the value it leaves in [self.planes]. *)
Definition parse (element : Node) : Res (list Plane) :=
  match element with
  | Element tag _ children =>
      if decide (tag = "plane") then
        ps <- forM parse_node children ;;
        Ret (omap id ps)
      else Raise AssertionError
  | OtherNode => Raise AttributeError
  end.

(** The instance built from a single vector. *)
Definition init_vector (v : KeyedVector) (threshold : option Threshold)
    (comparison : option Comparison) : KeyedPlane :=
  finish_init [(v, default DEFAULT_THRESHOLD threshold,
                   default DEFAULT_COMPARISON comparison)].

Definition __init__ (arg : InitArg) : Res KeyedPlane :=
  match arg with
  | FromNode n => ps <- parse n ;; Ret (finish_init ps)
  | FromVector v threshold comparison =>
      Ret (init_vector v threshold comparison)
  | FromList l => ps <- forM init_entry l ;; Ret (finish_init ps)
  end.

(** An entry that is already a triple, as [self.planes] holds them. *)
Definition as_entry (p : Plane) : Entry :=
  match p with
  | (v, t, c) => Entry3 v t c
  end.

(** *** Combination *)

Definition __add__ (self other : KeyedPlane) : Res KeyedPlane :=
  if decide (isConjunction self = isConjunction other) then
    result <- __init__ (FromList (as_entry <$> (planes self ++ planes other)%list)) ;;
    Ret (set_isConjunction (isConjunction self) result)
  else Raise AssertionError.

(** *** Evaluation *)

(** The pattern shared by the four tests of [evaluate]:
    [if passed: if not conj: return True / elif conj: return False];
    [None] means that the loop goes on. *)
Definition verdict (conj passed : bool) : option bool :=
  if passed then (if negb conj then Some true else None)
  else (if conj then Some false else None).

(** The value of [total] once a distribution has been collapsed. *)
Definition collapse (total : Total) : Res Q :=
  match total with
  | TotNum x => Ret x
  | TotDist d =>
      match d with
      | [(x, _)] => Ret x
      | _ => Raise AssertionError
      end
  end.

(** The body of the loop of [evaluate] from the comparison on. *)
Definition test_plane (conj : bool) (total : Q) (p : Plane)
    : Res (option bool) :=
  match p with
  | (plane, threshold, comparison) =>
      if gt_zero comparison then
        Ret (verdict conj (num_gt (total + epsilon plane) threshold))
      else if lt_zero comparison then
        Ret (verdict conj (num_lt (total - epsilon plane) threshold))
      else if eq_zero comparison then
        match threshold with
        | TList l =>
            ds <- forM (fun t => sub_threshold (TNum total) t) l ;;
            b <- reduce_or ((fun d => Qltb (Qabs d) (epsilon plane)) <$> ds) ;;
            Ret (verdict conj b)
        | _ =>
            d <- sub_threshold (TNum total) threshold ;;
            Ret (verdict conj (Qltb (Qabs d) (epsilon plane)))
        end
      else Raise ValueError
  end.

Fixpoint evaluate_loop (conj : bool) (vector : Arg State)
    (ps : list Plane) : Res bool :=
  match ps with
  | [] => Ret conj
  | p :: rest =>
      total <-
        collapse match vector with
                 | ArgFloat x => TotNum x
                 | ArgVector s => mul (fst (fst p)) s
                 end ;;
      r <- test_plane conj total p ;;
      match r with
      | Some b => Ret b
      | None => evaluate_loop conj vector rest
      end
  end.

Definition evaluate (self : KeyedPlane) (vector : Arg State) : Res bool :=
  evaluate_loop (isConjunction self) vector (planes self).

(** *** Symbolic resolution *)

Fixpoint desymbolizeThreshold (table : Table) (threshold : Threshold)
    : Res Threshold :=
  match threshold with
  | TStr s =>
      match py_eval s (Some table) with
      | Raise NameError => Ret threshold
      | r => r
      end
  | TList l =>
      l' <- (fix each (l : list Threshold) : Res (list Threshold) :=
               match l with
               | [] => Ret []
               | t :: r =>
                   t' <- desymbolizeThreshold table t ;;
                   r' <- each r ;;
                   Ret (t' :: r')
               end) l ;;
      Ret (TList l')
  | TNum _ => Ret threshold
  end.

Definition desymbolize (self : KeyedPlane) (table : Table)
    : Res KeyedPlane :=
  ps <- forM (fun p : Plane =>
                v <- vector_desymbolize (fst (fst p)) table ;;
                t <- desymbolizeThreshold table (snd (fst p)) ;;
                Ret (Entry3 v t (snd p)))
             (planes self) ;;
  __init__ (FromList ps).

(** *** Conflict detection *)

Definition compare (self other : KeyedPlane) (value : bool)
    : Res (option bool) :=
  sv <- getattr attr_vector self ;;
  ov <- getattr attr_vector other ;;
  if vector_eq sv ov then
    sc <- getattr attr_comparison self ;;
    if eq_zero sc then
      oc <- getattr attr_comparison other ;;
      if eq_zero oc then
        st <- getattr attr_threshold self ;;
        ot <- getattr attr_threshold other ;;
        d <- sub_threshold st ot ;;
        if Qltb (Qabs d) (epsilon sv) then Ret (Some value)
        else if value then Ret (Some false)
        else Ret None
      else
        st <- getattr attr_threshold self ;;
        ot <- getattr attr_threshold other ;;
        if cmp_is st ot oc then
          (if value then Ret None else Ret (Some false))
        else
          (if value then Ret (Some false) else Ret None)
    else
      oc <- getattr attr_comparison other ;;
      if eq_zero oc then
        if value then
          ot <- getattr attr_threshold other ;;
          st <- getattr attr_threshold self ;;
          Ret (Some (cmp_is ot st sc))
        else Ret None
      else Ret None
  else Ret None.

(** *** Minimization *)

(** The global name [CONSTANT].  The module neither defines nor imports it
    (it imports [operator], [Node], [Document], [KeyedVector] and
    [Distribution] only), so evaluating it raises [NameError]. *)
Definition CONSTANT : Res string := Raise NameError.

Definition minimize (self : KeyedPlane) : Res KeyedPlane :=
  v <- getattr attr_vector self ;;
  constant <- CONSTANT ;;
  match weights v !! constant with
  | Some c =>
      t <- getattr attr_threshold self ;;
      threshold <- sub_threshold t (TNum c) ;;
      comparison <- getattr attr_comparison self ;;
      __init__ (FromVector
                  {| weights := delete constant (weights v);
                     epsilon := epsilon v |}
                  (Some (TNum threshold)) (Some comparison))
  | None =>
      threshold <- getattr attr_threshold self ;;
      comparison <- getattr attr_comparison self ;;
      __init__ (FromVector v (Some threshold) (Some comparison))
  end.

(** *** Serialization *)

Definition xml_plane (p : Plane) : Node :=
  match p with
  | (vector, threshold, comparison) =>
      setAttribute "comparison" (str_comparison comparison)
        (setAttribute "threshold" (py_str threshold) (vector_xml vector))
  end.

(** The document [__xml__] returns; its root element is what [parse]
    reads. *)
Definition __xml__ (self : KeyedPlane) : Document :=
  {| documentElement := Element "plane" ∅ (xml_plane <$> planes self) |}.

(** *** Row factories *)

Definition thresholdRow (key : string) (threshold : Threshold)
    : KeyedPlane :=
  init_vector (new_vector {[ key := 1%Q ]}) (Some threshold) None.

Definition trueRow (key : string) : KeyedPlane :=
  thresholdRow key (TNum (1 # 2)).

Definition equalRow (key : string) (value : Threshold) : KeyedPlane :=
  init_vector (new_vector {[ key := 1%Q ]}) (Some value) (Some (CInt 0)).

Definition caseRow (key : string) : KeyedPlane :=
  init_vector (new_vector {[ key := 1%Q ]}) (Some (TNum 0))
    (Some (CStr "switch")).

(** *** Predicates used in the statements *)

(** An entry the loop of [__init__] rejects: a tuple of no component, or of
    more than three. *)
Definition rejected (e : Entry) : bool :=
  match e with
  | Entry0 | EntryLong => true
  | _ => false
  end.

Definition is_vector_element (n : Node) : bool :=
  match n with
  | Element tag _ _ => bool_decide (tag = "vector")
  | OtherNode => false
  end.

(** A triple with a numeric threshold and an integer marker whose parts
    survive the serialization primitives. *)
Definition serializable (p : Plane) : Prop :=
  match p with
  | (v, TNum q, CInt z) =>
      py_float (py_str (TNum q)) = Some q /\
      py_int (py_str_int z) = Some z /\
      is_vector_element (vector_xml v) = true /\
      vector_parse (xml_plane p) = Ret v
  | _ => False
  end.

(** *** Further predicates used in the statements *)

Definition is_numeric (t : Threshold) : bool :=
  match t with
  | TNum _ => true
  | TStr _ | TList _ => false
  end.

Definition is_element (n : Node) : bool :=
  match n with
  | Element _ _ _ => true
  | OtherNode => false
  end.

(** A threshold on which [desymbolizeThreshold] has nothing to resolve in
    [table]: each symbolic expression in it, at any depth, refers to a name
    the table does not define. *)
Inductive stays_symbolic (table : Table) : Threshold -> Prop :=
| stays_num (q : Q) : stays_symbolic table (TNum q)
| stays_str (s : string) :
    py_eval s (Some table) = Raise NameError ->
    stays_symbolic table (TStr s)
| stays_list (l : list Threshold) :
    Forall (stays_symbolic table) l -> stays_symbolic table (TList l).

(** *** The key cache *)

(** The union of the keys of the vectors of a sequence of triples. *)
Definition all_keys (ps : list Plane) : gset string :=
  foldl (fun acc (p : Plane) => acc ∪ dom (weights (fst (fst p)))) ∅ ps.

(** [self._keys = ks] *)
Definition set__keys (ks : option (gset string)) (t : KeyedPlane)
    : KeyedPlane :=
  {| planes := planes t; _string := _string t; _keys := ks;
     isConjunction := isConjunction t;
     attr_vector := attr_vector t; attr_threshold := attr_threshold t;
     attr_comparison := attr_comparison t |}.

(** [keys]: the set it returns and the instance as it leaves it. *)
Definition keys (self : KeyedPlane) : gset string * KeyedPlane :=
  match _keys self with
  | Some ks => (ks, self)
  | None =>
      (all_keys (planes self), set__keys (Some (all_keys (planes self))) self)
  end.

(** The cache is empty or holds the keys of the present triples. *)
Definition cache_fresh (t : KeyedPlane) : Prop :=
  _keys t = None \/ _keys t = Some (all_keys (planes t)).

(** *** Scaling *)

(** What [scale] may do: return, raise one of the exceptions above, or
    divide by a range of width zero. *)
Inductive ScaleRes (A : Type) :=
| SRet (a : A)
| SRaise (e : Exn)
| SZeroDivisionError.
Arguments SRet {A} a.
Arguments SRaise {A} e.
Arguments SZeroDivisionError {A}.

(** The variables of the loop of [scale]: [threshold], [symbolic], [span]. *)
Definition ScaleState : Type := Threshold * bool * option (Q * Q).

(** [table[key] == span] on pairs of numbers. *)
Definition range_eqb (r s : Q * Q) : bool :=
  Qeq_bool (fst r) (fst s) && Qeq_bool (snd r) (snd s).

(** The body of the loop of [scale] for one key and its weight. *)
Definition scale_key (table : gmap string (Q * Q)) (st : ScaleState)
    (kw : string * Q) : ScaleRes ScaleState :=
  match st with
  | (threshold, symbolic, span) =>
      match table !! fst kw with
      | Some range =>
          if symbolic then SRaise AssertionError
          else
            match span with
            | None =>
                match threshold with
                | TNum q =>
                    if Qeq_bool (snd range - fst range) 0
                    then SZeroDivisionError
                    else SRet (TNum (q / (snd range - fst range)
                                     - snd kw * fst range
                                       / (snd range - fst range)),
                               false, Some range)
                | TStr _ | TList _ => SRaise TypeError
                end
            | Some sp =>
                if range_eqb range sp then
                  match threshold with
                  | TNum q =>
                      SRet (TNum (q - snd kw * fst sp / (snd sp - fst sp)),
                            false, Some sp)
                  | TStr _ | TList _ => SRaise TypeError
                  end
                else SRaise AssertionError
            end
      | None =>
          match span with
          | None => SRet (threshold, true, span)
          | Some _ => SRaise AssertionError
          end
      end
  end.

Fixpoint scale_loop (table : gmap string (Q * Q)) (kws : list (string * Q))
    (st : ScaleState) : ScaleRes ScaleState :=
  match kws with
  | [] => SRet st
  | kw :: rest =>
      match scale_key table st kw with
      | SRet st' => scale_loop table rest st'
      | SRaise e => SRaise e
      | SZeroDivisionError => SZeroDivisionError
      end
  end.

(** [scale]; the assertion on the constant weight evaluates the global
    [CONSTANT]; the keys of the vector come in the order the mapping yields
    them. *)
Definition scale (self : KeyedPlane) (table : gmap string (Q * Q))
    : ScaleRes KeyedPlane :=
  match getattr attr_vector self with
  | Raise e => SRaise e
  | Ret vector =>
      match getattr attr_threshold self with
      | Raise e => SRaise e
      | Ret threshold =>
          match CONSTANT with
          | Raise e => SRaise e
          | Ret constant =>
              if decide (is_Some (weights vector !! constant))
              then SRaise AssertionError
              else
                match scale_loop table (map_to_list (weights vector))
                        (threshold, false, None) with
                | SRet (threshold', _, _) =>
                    match __init__
                            (FromVector vector (Some threshold') None) with
                    | Ret r => SRet r
                    | Raise e => SRaise e
                    end
                | SRaise e => SRaise e
                | SZeroDivisionError => SZeroDivisionError
                end
          end
      end
  end.

(** *** Rows over several keys *)

Definition differenceRow (key1 key2 : string) (threshold : Threshold)
    : KeyedPlane :=
  init_vector (new_vector (<[ key2 := (-1)%Q ]> {[ key1 := 1%Q ]}))
    (Some threshold) None.

Definition greaterThanRow (key1 key2 : string) : KeyedPlane :=
  differenceRow key1 key2 (TNum 0).

Definition andRow (trueKeys falseKeys : list string) : KeyedPlane :=
  init_vector
    (new_vector
       (foldl (fun w key => <[ key := (-1)%Q ]> w)
          (foldl (fun w key => <[ key := 1%Q ]> w) ∅ trueKeys) falseKeys))
    (Some (TNum (inject_Z (Z.of_nat (length trueKeys)) - (1 # 2)))) None.

Definition equalFeatureRow (key1 key2 : string) : KeyedPlane :=
  init_vector (new_vector (<[ key2 := (-1)%Q ]> {[ key1 := 1%Q ]}))
    (Some (TNum 0)) (Some (CInt 0)).

(** *** Tense *)

(** [KeyedVector.changeTense(future, keyList)]: what it makes of a vector. *)
Variable vector_changeTense : bool -> gset string -> KeyedVector -> KeyedVector.

(** [changeTense] rewrites the vector objects the triples hold, in place.
    For it the vectors are objects of a store and a triple holds a
    reference to one; two triples, of the same test or of different ones
    (a sum and its operands), may hold the same object. *)
Definition Ref : Type := positive.
Definition Store : Type := Ref -> KeyedVector.
Definition RefTriple : Type := Ref * Threshold * Comparison.

Record StoredPlane := {
  stored_planes : list RefTriple;
  stored_string : option string;
  stored_keys : option (gset string);
  stored_isConjunction : bool
}.

(** The instance as the other methods read it in a store. *)
Definition view (h : Store) (t : StoredPlane) : KeyedPlane :=
  {| planes :=
       (fun rt : RefTriple => (h (fst (fst rt)), snd (fst rt), snd rt))
         <$> stored_planes t;
     _string := stored_string t; _keys := stored_keys t;
     isConjunction := stored_isConjunction t;
     attr_vector := None; attr_threshold := None;
     attr_comparison := None |}.

(** A method that mutates the object behind a reference. *)
Definition rewrite_at (f : KeyedVector -> KeyedVector) (r : Ref)
    (h : Store) : Store :=
  fun r' => if decide (r' = r) then f (h r) else h r'.

(** The key list [changeTense] works with. *)
Definition tense_keys (keyList : option (gset string)) (self : StoredPlane)
    (h : Store) : gset string :=
  match keyList with
  | Some ks => ks
  | None => fst (keys (view h self))
  end.

Definition changeTense (future : bool) (keyList : option (gset string))
    (self : StoredPlane) (h : Store) : Store * StoredPlane :=
  (foldl (fun h' (rt : RefTriple) =>
            rewrite_at
              (vector_changeTense future (tense_keys keyList self h))
              (fst (fst rt)) h')
     h (stored_planes self),
   {| stored_planes := stored_planes self; stored_string := None;
      stored_keys := None;
      stored_isConjunction := stored_isConjunction self |}).

Definition makeFuture (keyList : option (gset string)) (self : StoredPlane)
    (h : Store) : Store * StoredPlane :=
  changeTense true keyList self h.

Definition makePresent (keyList : option (gset string)) (self : StoredPlane)
    (h : Store) : Store * StoredPlane :=
  changeTense false keyList self h.

(** How many triples of a sequence hold the object [r]. *)
Definition holders (r : Ref) (rts : list RefTriple) : nat :=
  length (filter (fun rt : RefTriple => fst (fst rt) = r) rts).

(** ** Properties *)

Lemma Qltb_lt (x y : Q) : Qltb x y = true <-> (x < y)%Q.
Proof.
  unfold Qltb. rewrite negb_true_iff. split.
  - intros H. apply Qnot_le_lt. intros Hle.
    apply Qle_bool_iff in Hle. congruence.
  - intros H. destruct (Qle_bool y x) eqn:E; [|reflexivity].
    apply Qle_bool_iff in E. lra.
Qed.

Lemma Qltb_ge (x y : Q) : Qltb x y = false <-> (y <= x)%Q.
Proof.
  unfold Qltb. rewrite negb_false_iff. apply Qle_bool_iff.
Qed.

(** *** Evaluation *)

(** A test of one triple on a float: the verdict of the triple, or the flag
    when the loop runs to its end. *)
Lemma evaluate_single_float (conj : bool) (p : Plane) (x : Q) :
  evaluate (set_isConjunction conj (finish_init [p])) (ArgFloat x) =
  (r <- test_plane conj x p ;; Ret (default conj r)).
Proof.
  unfold evaluate. simpl.
  destruct (test_plane conj x p) as [[b|]|e]; reflexivity.
Qed.

Lemma default_verdict (conj passed : bool) :
  default conj (verdict conj passed) = passed.
Proof. destruct conj, passed; reflexivity. Qed.

(** An ABOVE triple on a float, under either flag. *)
Lemma evaluate_above_float (conj : bool) (v : KeyedVector) (T x : Q) :
  evaluate
    (set_isConjunction conj (init_vector v (Some (TNum T)) (Some (CInt 1))))
    (ArgFloat x)
  = Ret (Qltb T (x + epsilon v)).
Proof.
  unfold init_vector. rewrite evaluate_single_float. simpl.
  now rewrite default_verdict.
Qed.

(** C2: an ABOVE triple evaluated against a scalar total passes exactly
    when total + epsilon > threshold, with the epsilon of the triple's own
    vector; the call returns a boolean under either flag. *)
Theorem C2_above_passes_iff (conj : bool) (v : KeyedVector) (T total : Q) :
  exists b : bool,
    evaluate
      (set_isConjunction conj
         (init_vector v (Some (TNum T)) (Some (CInt 1))))
      (ArgFloat total) = Ret b /\
    (b = true <-> (total + epsilon v > T)%Q).
Proof.
  exists (Qltb T (total + epsilon v)). split.
  - apply evaluate_above_float.
  - apply Qltb_lt.
Qed.

(** *** Construction *)

Lemma forM_init_entry_rejected (l : list Entry) :
  Exists (fun e => rejected e = true) l ->
  forM init_entry l = Raise ValueError.
Proof.
  induction l as [|e l IH]; intros H; inversion H as [? ? He|? ? Hl]; subst.
  - destruct e; simpl in He; try discriminate; reflexivity.
  - simpl. destruct (init_entry e) as [p|x] eqn:E; simpl.
    + rewrite (IH Hl). reflexivity.
    + destruct e; simpl in E; congruence.
Qed.

Lemma forM_init_entry_accepted (l : list Entry) :
  Forall (fun e => rejected e = false) l ->
  exists ps, forM init_entry l = Ret ps /\ length ps = length l.
Proof.
  induction 1 as [|e l He _ (ps & Hps & Hlen)].
  - exists []. split; reflexivity.
  - destruct e; simpl in He; try discriminate; simpl; rewrite Hps; simpl;
      eexists; (split; [reflexivity|]); simpl; now rewrite Hlen.
Qed.

(** The triples of an existing test pass through the constructor as they
    are. *)
Lemma forM_as_entry (ps : list Plane) :
  forM init_entry (as_entry <$> ps) = Ret ps.
Proof.
  induction ps as [|[[v t] c] ps IH]; [reflexivity|].
  simpl. unfold fmap in IH. rewrite IH. reflexivity.
Qed.

(** Whatever the constructor returns has the three final assignments. *)
Lemma init_returns_finish (arg : InitArg) (t : KeyedPlane) :
  __init__ arg = Ret t -> exists ps, t = finish_init ps.
Proof.
  destruct arg as [n|v th c|l]; simpl.
  - destruct (parse n) as [ps|e]; simpl; [|discriminate].
    intros [= <-]. now exists ps.
  - intros [= <-]. eexists. reflexivity.
  - destruct (forM init_entry l) as [ps|e]; simpl; [|discriminate].
    intros [= <-]. now exists ps.
Qed.

(** C3, as the code has it: construction from a sequence raises [ValueError]
    when one of its entries is empty (or longer than three), and succeeds
    with one triple per entry otherwise; from the empty sequence it succeeds
    and the test has no triple. *)
Theorem C3_init_rejects_entries_not_sequences (l : list Entry) :
  (Exists (fun e => rejected e = true) l ->
   __init__ (FromList l) = Raise ValueError) /\
  (Forall (fun e => rejected e = false) l ->
   exists t, __init__ (FromList l) = Ret t /\
             length (planes t) = length l) /\
  __init__ (FromList []) = Ret (finish_init []).
Proof.
  split; [|split].
  - intros H. simpl. now rewrite (forM_init_entry_rejected l H).
  - intros H. destruct (forM_init_entry_accepted l H) as (ps & Hps & Hlen).
    exists (finish_init ps). simpl. rewrite Hps. split; [reflexivity|exact Hlen].
  - reflexivity.
Qed.

(** *** Combination *)

(** C5: [p + q] raises [AssertionError] when the flags differ; when they
    agree it returns a test whose triples are those of [p] followed by those
    of [q], with the shared flag. *)
Theorem C5_add_concatenates_or_fails (p q : KeyedPlane) :
  (isConjunction p <> isConjunction q ->
   __add__ p q = Raise AssertionError) /\
  (isConjunction p = isConjunction q ->
   exists r, __add__ p q = Ret r /\
             planes r = (planes p ++ planes q)%list /\
             isConjunction r = isConjunction p /\
             isConjunction r = isConjunction q).
Proof.
  unfold __add__. split; intros H.
  - destruct (decide (isConjunction p = isConjunction q)); [contradiction|].
    reflexivity.
  - destruct (decide (isConjunction p = isConjunction q)); [|contradiction].
    simpl. rewrite forM_as_entry. simpl.
    eexists. split; [reflexivity|]. simpl. auto.
Qed.

(** *** Symbolic resolution *)

(** C10: the test [desymbolize] returns is conjunctive, whatever the flag of
    the test it was called on. *)
Theorem C10_desymbolize_resets_flag (t r : KeyedPlane) (table : Table) :
  desymbolize t table = Ret r -> isConjunction r = true.
Proof.
  unfold desymbolize. intros H.
  destruct (forM _ (planes t)) as [ps|e]; cbn [bind] in H; [|discriminate].
  apply init_returns_finish in H as [ps' ->]. reflexivity.
Qed.

(** *** Attributes of constructed instances *)

(** [__init__] assigns [planes], [_string], [_keys] and [isConjunction]
    only, so reading [vector] on what it built raises. *)
Lemma constructed_has_no_vector (conj : bool) (ps : list Plane) :
  getattr attr_vector (set_isConjunction conj (finish_init ps))
  = Raise AttributeError.
Proof. reflexivity. Qed.

(** *** Minimization *)

(** With the attribute [vector] assigned from outside, [minimize] gets past
    the first line and raises [NameError] at [CONSTANT]. *)
Lemma minimize_unbound_constant (self : KeyedPlane) (v : KeyedVector) :
  attr_vector self = Some v -> minimize self = Raise NameError.
Proof.
  intros Hv. unfold minimize, getattr. rewrite Hv. reflexivity.
Qed.

(** On no instance does [minimize] return a test. *)
Lemma minimize_never_returns (self r : KeyedPlane) :
  minimize self <> Ret r.
Proof.
  unfold minimize, getattr. destruct (attr_vector self); discriminate.
Qed.

(** C7, on the code: [minimize] raises [AttributeError] on every instance
    the constructor builds, whatever its flag, and so on every row of
    [thresholdRow]; no test is returned. *)
Theorem C7_minimize_raises_on_constructed (conj : bool) (ps : list Plane) :
  minimize (set_isConjunction conj (finish_init ps)) = Raise AttributeError /\
  forall (key : string) (T : Threshold),
    minimize (thresholdRow key T) = Raise AttributeError.
Proof. split; reflexivity. Qed.

(** *** Conflict detection *)

(** With the attributes assigned from outside, two EQUAL tests over equal
    vectors with thresholds within epsilon give back [value]. *)
Lemma compare_equal_with_attributes (self other : KeyedPlane)
    (v w : KeyedVector) (T U : Q) (value : bool) :
  attr_vector self = Some v -> attr_vector other = Some w ->
  attr_threshold self = Some (TNum T) ->
  attr_threshold other = Some (TNum U) ->
  attr_comparison self = Some (CInt 0) ->
  attr_comparison other = Some (CInt 0) ->
  vector_eq v w = true ->
  (Qabs (T - U) < epsilon v)%Q ->
  compare self other value = Ret (Some value).
Proof.
  intros Hv Hw HT HU Hc Hd Heq Hlt. unfold compare, getattr.
  rewrite Hv, Hw. cbn [bind]. rewrite Heq, Hc. cbn [bind eq_zero Z.eqb].
  rewrite Hd. cbn [bind eq_zero Z.eqb]. rewrite HT, HU.
  cbn [bind sub_threshold].
  apply Qltb_lt in Hlt. rewrite Hlt. reflexivity.
Qed.

(** With the attribute [vector] assigned from outside on both, unequal
    vectors give [None]. *)
Lemma compare_mismatch_with_attributes (self other : KeyedPlane)
    (v w : KeyedVector) (value : bool) :
  attr_vector self = Some v -> attr_vector other = Some w ->
  vector_eq v w = false ->
  compare self other value = Ret None.
Proof.
  intros Hv Hw Hne. unfold compare, getattr.
  rewrite Hv, Hw. cbn [bind]. rewrite Hne. reflexivity.
Qed.

(** C8, on the code: [compare] between two rows of [equalRow] over the same
    key, whatever their thresholds, raises [AttributeError] for either
    [value]: the first read of [self.vector] fails. *)
Theorem C8_compare_equal_rows_raises (key : string) (T U : Threshold)
    (value : bool) :
  compare (equalRow key T) (equalRow key U) value = Raise AttributeError.
Proof.
  unfold compare, equalRow, init_vector.
  change (finish_init ?l) with (set_isConjunction true (finish_init l)).
  now rewrite constructed_has_no_vector.
Qed.

(** C9, on the code: [compare] between two instances returned by the
    constructor raises [AttributeError], whatever they were built from (so
    also when their vectors differ), whatever flag they were given
    afterwards and whatever [value] is. *)
Theorem C9_compare_raises_on_constructed (a b : InitArg)
    (self other : KeyedPlane) (conj1 conj2 value : bool) :
  __init__ a = Ret self -> __init__ b = Ret other ->
  compare (set_isConjunction conj1 self) (set_isConjunction conj2 other)
    value
  = Raise AttributeError.
Proof.
  intros Ha Hb.
  apply init_returns_finish in Ha as [ps ->].
  apply init_returns_finish in Hb as [qs ->].
  unfold compare. now rewrite constructed_has_no_vector.
Qed.

(** *** Serialization *)

Lemma parse_node_xml_plane (p : Plane) :
  serializable p -> parse_node (xml_plane p) = Ret (Some p).
Proof.
  destruct p as [[v [q|s|l]] [z|s']]; simpl; try contradiction.
  intros (Hq & Hz & Hel & Hv). revert Hv.
  destruct (vector_xml v) as [tag attrs ch|]; [|discriminate].
  simpl in Hel. apply bool_decide_eq_true in Hel. subst tag. simpl.
  intros ->. cbn [bind]. unfold getAttribute.
  rewrite lookup_insert_ne by discriminate.
  rewrite !lookup_insert_eq. simpl. rewrite Hq, Hz. reflexivity.
Qed.

Lemma forM_parse_node_xml (ps : list Plane) :
  Forall serializable ps ->
  forM parse_node (xml_plane <$> ps) = Ret (Some <$> ps).
Proof.
  induction 1 as [|p ps Hp _ IH]; [reflexivity|].
  rewrite !fmap_cons. cbn [forM]. rewrite (parse_node_xml_plane p Hp).
  cbn [bind]. rewrite IH. reflexivity.
Qed.

Lemma omap_id_Some (ps : list Plane) : omap id (Some <$> ps) = ps.
Proof.
  induction ps as [|p ps IH]; [reflexivity|].
  rewrite fmap_cons. cbn [omap list_omap id]. fold (omap id (Some <$> ps)).
  now rewrite IH.
Qed.

(** C6, as the code has it: parsing the serialized tree of a test with
    numeric thresholds and integer markers gives a test with the same
    triples whose flag is true; it evaluates as the original does when the
    original is conjunctive. *)
Theorem C6_roundtrip_keeps_triples_not_flag (t : KeyedPlane) :
  Forall serializable (planes t) ->
  exists t',
    __init__ (FromNode (documentElement (__xml__ t))) = Ret t' /\
    planes t' = planes t /\
    isConjunction t' = true /\
    (isConjunction t = true ->
     forall arg : Arg State, evaluate t' arg = evaluate t arg).
Proof.
  intros H. exists (finish_init (planes t)). repeat split.
  - simpl. rewrite (forM_parse_node_xml _ H). cbn [bind].
    now rewrite omap_id_Some.
  - intros Hc arg. unfold evaluate. rewrite Hc. reflexivity.
Qed.

(** ** Further properties of the code *)

(** *** Evaluation: the loop *)

(** A triple only ever decides against the flag: it stops a conjunction
    with [False] and a disjunction with [True]. *)
Lemma verdict_decides (conj passed b : bool) :
  verdict conj passed = Some b -> b = negb conj.
Proof. destruct conj, passed; simpl; congruence. Qed.

Lemma test_plane_decides (conj : bool) (total : Q) (p : Plane) (b : bool) :
  test_plane conj total p = Ret (Some b) -> b = negb conj.
Proof.
  destruct p as [[v t] c]. unfold test_plane.
  destruct (gt_zero c); [intros [= H]; eauto using verdict_decides|].
  destruct (lt_zero c); [intros [= H]; eauto using verdict_decides|].
  destruct (eq_zero c); [|discriminate].
  destruct t as [q|s|l].
  - cbn [sub_threshold bind]. intros [= H]. eauto using verdict_decides.
  - cbn [sub_threshold bind]. discriminate.
  - destruct (forM _ l) as [ds|e]; cbn [bind]; [|discriminate].
    destruct (reduce_or _) as [r|e]; cbn [bind]; [|discriminate].
    intros [= H]. eauto using verdict_decides.
Qed.

(** The loop over two sequences of triples run one after the other. *)
Lemma evaluate_loop_app (conj : bool) (arg : Arg State)
    (ps qs : list Plane) :
  evaluate_loop conj arg (ps ++ qs)%list =
  (b <- evaluate_loop conj arg ps ;;
   if Bool.eqb b conj then evaluate_loop conj arg qs else Ret b).
Proof.
  induction ps as [|p ps IH].
  - cbn [app evaluate_loop bind]. now rewrite Bool.eqb_reflx.
  - cbn [app evaluate_loop].
    destruct (collapse _) as [total|e]; cbn [bind]; [|reflexivity].
    destruct (test_plane conj total p) as [[b|]|e] eqn:E; cbn [bind];
      [|exact IH|reflexivity].
    apply test_plane_decides in E. subst b. now destruct conj.
Qed.

(** X1: a sum evaluates as its left operand followed by its right one: when
    the left operand decides against the flag (fails a conjunction, passes
    a disjunction) that is the result and the right operand is not
    evaluated; when the left operand raises, so does the sum; otherwise the
    result is that of the right operand. *)
Theorem X1_evaluate_add (p q r : KeyedPlane) (arg : Arg State) :
  __add__ p q = Ret r ->
  evaluate r arg =
  (b <- evaluate p arg ;;
   if Bool.eqb b (isConjunction p) then evaluate q arg else Ret b).
Proof.
  unfold __add__.
  destruct (decide (isConjunction p = isConjunction q)) as [Hf|];
    [|discriminate].
  cbn [__init__]. rewrite forM_as_entry. cbn [bind]. intros [= <-].
  unfold evaluate. cbn [planes isConjunction set_isConjunction finish_init].
  rewrite evaluate_loop_app. now rewrite Hf.
Qed.

(** X2: short-circuit.  In a conjunctive test, when the triples before
    some triple return [True] as a test of their own and that triple alone
    returns [False], the whole test returns [False] whatever follows; the
    same holds for a disjunctive test with [False] and [True] exchanged.
    The triples that follow are not looked at: they may be ones on which
    the loop would raise. *)
Theorem X2_evaluate_short_circuit (conj : bool) (arg : Arg State)
    (before after : list Plane) (p : Plane) :
  evaluate (set_isConjunction conj (finish_init before)) arg = Ret conj ->
  evaluate (set_isConjunction conj (finish_init [p])) arg
  = Ret (negb conj) ->
  evaluate (set_isConjunction conj (finish_init (before ++ p :: after)))
    arg = Ret (negb conj).
Proof.
  unfold evaluate.
  cbn [planes isConjunction set_isConjunction finish_init]. intros Hb Hp.
  rewrite evaluate_loop_app, Hb. cbn [bind]. rewrite Bool.eqb_reflx.
  change (p :: after) with ([p] ++ after)%list.
  rewrite evaluate_loop_app, Hp. cbn [bind]. now destruct conj.
Qed.

(** X3: a test without triples returns its flag on every input; the test
    the constructor builds from the empty sequence passes on everything. *)
Theorem X3_evaluate_empty_test (t : KeyedPlane) (arg : Arg State) :
  planes t = [] ->
  evaluate t arg = Ret (isConjunction t) /\
  forall t0, __init__ (FromList []) = Ret t0 -> evaluate t0 arg = Ret true.
Proof.
  intros H. split.
  - unfold evaluate. now rewrite H.
  - intros t0 [= <-]. reflexivity.
Qed.

(** *** Evaluation: what it raises *)

Lemma forM_sub_threshold_raises (total : Q) (l : list Threshold) (e : Exn) :
  forM (fun t => sub_threshold (TNum total) t) l = Raise e -> e = TypeError.
Proof.
  induction l as [|t l IH]; [discriminate|]. cbn [forM].
  destruct t as [q|s|l']; cbn [sub_threshold bind]; try congruence.
  destruct (forM _ l) as [ds|e']; cbn [bind]; [discriminate|].
  intros [= <-]. now apply IH.
Qed.

Lemma test_plane_raises (conj : bool) (total : Q) (p : Plane) (e : Exn) :
  test_plane conj total p = Raise e -> e = TypeError.
Proof.
  destruct p as [[v t] c]. unfold test_plane.
  destruct (gt_zero c) eqn:Hg; [discriminate|].
  destruct (lt_zero c) eqn:Hl; [discriminate|].
  destruct (eq_zero c) eqn:He.
  - destruct t as [q|s|l]; cbn [sub_threshold bind]; try congruence.
    destruct (forM _ l) as [ds|e'] eqn:E; cbn [bind].
    + destruct ds; cbn [fmap list_fmap reduce_or bind]; congruence.
    + intros [= <-]. eapply forM_sub_threshold_raises, E.
  - destruct c as [z|s]; [|discriminate]. simpl in Hg, Hl, He. lia.
Qed.

Lemma evaluate_loop_raises (conj : bool) (arg : Arg State)
    (ps : list Plane) (e : Exn) :
  evaluate_loop conj arg ps = Raise e ->
  e = AssertionError \/ e = TypeError.
Proof.
  induction ps as [|p ps IH]; [discriminate|]. cbn [evaluate_loop].
  destruct (collapse _) as [total|e'] eqn:Ec; cbn [bind].
  - destruct (test_plane conj total p) as [[b|]|e'] eqn:Et; cbn [bind].
    + discriminate.
    + exact IH.
    + intros [= <-]. right. eapply test_plane_raises, Et.
  - intros [= <-]. left.
    destruct arg as [x|s]; [discriminate|].
    destruct (mul p.1.1 s) as [x|[|[x pr] [|? ?]]]; simpl in Ec; congruence.
Qed.

(** X4: whatever the test and the input, [evaluate] raises nothing but
    [AssertionError] (a distribution of several outcomes) and [TypeError]
    (an equality test against a threshold that is not a number, or against
    an empty list); on a float it raises nothing but [TypeError].  In
    particular the [ValueError] of its last branch is never raised for a
    marker that is an [int] or a [str]. *)
Theorem X4_evaluate_raises_only (t : KeyedPlane) (arg : Arg State) (e : Exn) :
  evaluate t arg = Raise e ->
  (e = AssertionError \/ e = TypeError) /\
  (forall x, arg = ArgFloat x -> e = TypeError).
Proof.
  intros H. split; [eapply evaluate_loop_raises, H|].
  intros x ->. revert H. unfold evaluate.
  induction (planes t) as [|p ps IH]; [discriminate|].
  cbn [evaluate_loop collapse bind].
  destruct (test_plane _ x p) as [[b|]|e'] eqn:Et; cbn [bind].
  - discriminate.
  - exact IH.
  - intros [= <-]. eapply test_plane_raises, Et.
Qed.

(** X5: on a float, a test whose thresholds are all numbers always returns
    a boolean. *)
Theorem X5_evaluate_numeric_returns (t : KeyedPlane) (x : Q) :
  Forall (fun p : Plane => is_numeric (snd (fst p)) = true) (planes t) ->
  exists b : bool, evaluate t (ArgFloat x) = Ret b.
Proof.
  unfold evaluate. induction 1 as [|[[v th] c] ps Hp _ IH].
  - eexists. reflexivity.
  - cbn [evaluate_loop collapse bind].
    destruct (test_plane (isConjunction t) x (v, th, c)) as [[b|]|e] eqn:Et;
      cbn [bind].
    + eexists. reflexivity.
    + exact IH.
    + exfalso. revert Et. unfold test_plane.
      destruct th as [q|s|l]; [|discriminate Hp|discriminate Hp].
      destruct (gt_zero c) eqn:Hg; [discriminate|].
      destruct (lt_zero c) eqn:Hl; [discriminate|].
      destruct (eq_zero c) eqn:He; [discriminate|].
      destruct c as [z|s]; [|discriminate]. simpl in Hg, Hl, He. lia.
Qed.

(** *** Evaluation: the comparisons *)

(** X6: a BELOW triple (marker -1) against a scalar total passes exactly
    when total - epsilon < threshold, and an EQUAL triple (marker 0) with a
    numeric threshold exactly when |total - threshold| < epsilon; under
    either flag the call returns that boolean. *)
Theorem X6_below_and_equal (conj : bool) (v : KeyedVector) (T total : Q) :
  (exists b : bool,
     evaluate
       (set_isConjunction conj
          (init_vector v (Some (TNum T)) (Some (CInt (-1)))))
       (ArgFloat total) = Ret b /\
     (b = true <-> (total - epsilon v < T)%Q)) /\
  (exists b : bool,
     evaluate
       (set_isConjunction conj
          (init_vector v (Some (TNum T)) (Some (CInt 0))))
       (ArgFloat total) = Ret b /\
     (b = true <-> (Qabs (total - T) < epsilon v)%Q)).
Proof.
  split; eexists; (split; [unfold init_vector; rewrite evaluate_single_float;
    simpl; rewrite default_verdict; reflexivity|apply Qltb_lt]).
Qed.

Lemma forM_sub_numeric (total : Q) (qs : list Q) :
  forM (fun t => sub_threshold (TNum total) t) (TNum <$> qs)
  = Ret ((fun q => (total - q)%Q) <$> qs).
Proof.
  induction qs as [|q qs IH]; [reflexivity|].
  rewrite !fmap_cons. cbn [forM]. rewrite IH. reflexivity.
Qed.

Lemma fold_orb_within (total eps : Q) (qs : list Q) (b0 : bool) :
  fold_left orb
    ((fun d => Qltb (Qabs d) eps) <$> ((fun q => (total - q)%Q) <$> qs)) b0
  = true
  <-> b0 = true \/ Exists (fun q => (Qabs (total - q) < eps)%Q) qs.
Proof using Type.
  revert b0. induction qs as [|q qs IH]; intros b0.
  - simpl. rewrite Exists_nil. split; [now left|intros [H|[]]; exact H].
  - rewrite !fmap_cons. cbn [fold_left]. rewrite IH, Exists_cons.
    rewrite orb_true_iff, Qltb_lt.
    split; [intros [[H|H]|H]|intros [H|[H|H]]]; auto.
Qed.

(** X7: an EQUAL triple whose threshold is a list of numbers passes on a
    scalar total exactly when the total is within epsilon of one of them;
    with the empty list the call raises [TypeError] (a [reduce] of an empty
    sequence). *)
Theorem X7_equal_list (conj : bool) (v : KeyedVector) (qs : list Q)
    (total : Q) :
  (qs = [] ->
   evaluate
     (set_isConjunction conj
        (init_vector v (Some (TList (TNum <$> qs))) (Some (CInt 0))))
     (ArgFloat total) = Raise TypeError) /\
  (qs <> [] ->
   exists b : bool,
     evaluate
       (set_isConjunction conj
          (init_vector v (Some (TList (TNum <$> qs))) (Some (CInt 0))))
       (ArgFloat total) = Ret b /\
     (b = true <->
      Exists (fun q => (Qabs (total - q) < epsilon v)%Q) qs)).
Proof.
  unfold init_vector. rewrite evaluate_single_float.
  cbn -[forM Qltb Qabs reduce_or fmap bind sub_threshold].
  rewrite forM_sub_numeric. cbn [bind]. split.
  - intros ->. reflexivity.
  - destruct qs as [|q qs]; [congruence|]. intros _.
    rewrite !fmap_cons. cbn [reduce_or bind]. rewrite default_verdict.
    eexists. split; [reflexivity|].
    rewrite fold_orb_within, Exists_cons, Qltb_lt. reflexivity.
Qed.

(** X9: a triple whose threshold is still a symbolic expression is
    evaluated all the same: on a float an ABOVE triple then never passes
    and a BELOW triple always passes (a number is ordered before a
    string), and an EQUAL triple raises [TypeError]. *)
Theorem X9_symbolic_threshold (conj : bool) (v : KeyedVector) (s : string)
    (x : Q) :
  evaluate
    (set_isConjunction conj (init_vector v (Some (TStr s)) (Some (CInt 1))))
    (ArgFloat x) = Ret false /\
  evaluate
    (set_isConjunction conj
       (init_vector v (Some (TStr s)) (Some (CInt (-1)))))
    (ArgFloat x) = Ret true /\
  evaluate
    (set_isConjunction conj (init_vector v (Some (TStr s)) (Some (CInt 0))))
    (ArgFloat x) = Raise TypeError.
Proof. destruct conj; repeat split. Qed.

(** X10: when the product of the first vector with the state is a
    distribution that does not have exactly one outcome, [evaluate] raises
    [AssertionError]; when the product of a single-triple test is a
    distribution of one outcome, the result is that of evaluating the
    outcome as a float, whatever probability it carries. *)
Theorem X10_evaluate_distribution (conj : bool) (v : KeyedVector)
    (T : Threshold) (c : Comparison) (rest : list Plane) (s : State)
    (d : Distribution) :
  mul v s = TotDist d ->
  (length d <> 1%nat ->
   evaluate (set_isConjunction conj (finish_init ((v, T, c) :: rest)))
     (ArgVector s) = Raise AssertionError) /\
  (forall x pr, d = [(x, pr)] ->
   evaluate (set_isConjunction conj (finish_init [(v, T, c)])) (ArgVector s)
   = evaluate (set_isConjunction conj (finish_init [(v, T, c)]))
       (ArgFloat x)).
Proof.
  intros Hm. unfold evaluate.
  cbn [planes isConjunction set_isConjunction finish_init evaluate_loop fst].
  rewrite Hm. split.
  - intros Hd. destruct d as [|[x pr] [|? ?]]; simpl in *; congruence.
  - intros x pr ->. reflexivity.
Qed.

(** *** Symbolic resolution *)

Lemma Threshold_nested_ind (P : Threshold -> Prop) :
  (forall q, P (TNum q)) ->
  (forall s, P (TStr s)) ->
  (forall l, Forall P l -> P (TList l)) ->
  forall t, P t.
Proof.
  intros Hn Hs Hl. fix IH 1. intros [q|s|l]; [apply Hn|apply Hs|].
  apply Hl. induction l as [|t l IHl]; constructor; [apply IH|apply IHl].
Qed.

(** The loop over a list threshold is the element-wise call. *)
Lemma desymbolizeThreshold_list (table : Table) (l : list Threshold) :
  desymbolizeThreshold table (TList l) =
  (l' <- forM (desymbolizeThreshold table) l ;; Ret (TList l')).
Proof.
  cbn [desymbolizeThreshold]. f_equal.
  induction l as [|t l IH]; [reflexivity|].
  cbn [forM]. now rewrite IH.
Qed.

Lemma forM_Forall2 {A B : Type} (f : A -> Res B) (l : list A) (l' : list B) :
  forM f l = Ret l' -> Forall2 (fun a b => f a = Ret b) l l'.
Proof.
  revert l'. induction l as [|a l IH]; intros l'; cbn [forM].
  - intros [= <-]. constructor.
  - destruct (f a) as [b|e] eqn:E; cbn [bind]; [|discriminate].
    destruct (forM f l) as [bs|e]; cbn [bind]; [|discriminate].
    intros [= <-]. constructor; [exact E|now apply IH].
Qed.

Lemma forM_id {A : Type} (f : A -> Res A) (l : list A) :
  Forall (fun a => f a = Ret a) l -> forM f l = Ret l.
Proof.
  induction 1 as [|a l Ha _ IH]; [reflexivity|].
  cbn [forM]. now rewrite Ha, IH.
Qed.

Lemma desymbolizeThreshold_stays (table : Table) (t : Threshold) :
  stays_symbolic table t -> desymbolizeThreshold table t = Ret t.
Proof.
  induction t as [q|s|l IH] using Threshold_nested_ind; intros H.
  - reflexivity.
  - inversion H as [|? Hs|]; subst. cbn [desymbolizeThreshold].
    now rewrite Hs.
  - inversion H as [| |? Hl]; subst. rewrite desymbolizeThreshold_list.
    rewrite forM_id; [reflexivity|].
    rewrite Forall_forall in IH, Hl |- *. intros t Ht. auto.
Qed.

(** X11: [desymbolizeThreshold] gives back the threshold it was given when
    no expression in it resolves: numbers pass through, a name the table
    does not define is swallowed and the expression kept, and this holds
    through lists at any depth.  An expression that does evaluate is
    replaced by its value. *)
Theorem X11_desymbolizeThreshold_keeps_unresolved (table : Table)
    (t : Threshold) :
  (stays_symbolic table t -> desymbolizeThreshold table t = Ret t) /\
  (forall s v, t = TStr s -> py_eval s (Some table) = Ret v ->
     desymbolizeThreshold table t = Ret v).
Proof.
  split; [apply desymbolizeThreshold_stays|].
  intros s v -> Hv. cbn [desymbolizeThreshold]. now rewrite Hv.
Qed.

(** X12: a list threshold is resolved element by element: when the call
    returns, the result is a list of the same length whose elements are the
    resolutions of the elements, in order; an expression whose evaluation
    raises anything but [NameError] makes the call raise that. *)
Theorem X12_desymbolizeThreshold_elementwise (table : Table)
    (l : list Threshold) :
  (forall r, desymbolizeThreshold table (TList l) = Ret r ->
     exists l', r = TList l' /\ length l' = length l /\
       Forall2 (fun t t' => desymbolizeThreshold table t = Ret t') l l') /\
  (forall s e, py_eval s (Some table) = Raise e -> e <> NameError ->
     desymbolizeThreshold table (TList (TStr s :: l)) = Raise e).
Proof.
  split.
  - intros r. rewrite desymbolizeThreshold_list.
    destruct (forM _ l) as [l'|e] eqn:E; cbn [bind]; [|discriminate].
    intros [= <-]. exists l'. apply forM_Forall2 in E.
    split; [reflexivity|]. split; [|exact E].
    symmetry. eapply Forall2_length, E.
  - intros s e He Hne. rewrite desymbolizeThreshold_list.
    cbn [forM desymbolizeThreshold]. rewrite He.
    destruct e; try reflexivity. contradiction.
Qed.

(** X13: what [desymbolize] returns has one triple per triple of the test,
    in order: the vector is the vector's own resolution, the threshold the
    resolution of the threshold, the marker is kept; the caches are empty. *)
Theorem X13_desymbolize_triples (t r : KeyedPlane) (table : Table) :
  desymbolize t table = Ret r ->
  Forall2
    (fun p p' : Plane =>
       vector_desymbolize (fst (fst p)) table = Ret (fst (fst p')) /\
       desymbolizeThreshold table (snd (fst p)) = Ret (snd (fst p')) /\
       snd p' = snd p)
    (planes t) (planes r) /\
  _keys r = None /\ _string r = None.
Proof.
  unfold desymbolize.
  destruct (forM _ (planes t)) as [es|e] eqn:E; cbn [bind]; [|discriminate].
  cbn [__init__].
  destruct (forM init_entry es) as [ps|e] eqn:E2; cbn [bind]; [|discriminate].
  intros [= <-]. cbn [planes finish_init _keys _string].
  split; [|split; reflexivity].
  apply forM_Forall2 in E. apply forM_Forall2 in E2.
  revert ps E2. induction E as [|p en ps0 es0 Hp _ IH]; intros ps E2.
  - inversion E2. constructor.
  - inversion E2 as [|? p' ? ps' Hp' Hes]; subst. constructor; [|now apply IH].
    destruct (vector_desymbolize _ table) as [v|?]; cbn [bind] in Hp;
      [|discriminate].
    destruct (desymbolizeThreshold table _) as [th|?]; cbn [bind] in Hp;
      [|discriminate].
    injection Hp as <-. injection Hp' as <-. auto.
Qed.

(** X14: on a test with nothing to resolve (vectors that are their own
    resolution, thresholds in which no expression resolves) [desymbolize]
    returns the same triples in a fresh instance: conjunctive, caches
    empty. *)
Theorem X14_desymbolize_nothing_to_resolve (t : KeyedPlane) (table : Table) :
  Forall
    (fun p : Plane =>
       vector_desymbolize (fst (fst p)) table = Ret (fst (fst p)) /\
       stays_symbolic table (snd (fst p)))
    (planes t) ->
  desymbolize t table = Ret (finish_init (planes t)).
Proof.
  intros H. unfold desymbolize.
  assert (E : forM (fun p : Plane =>
                      v <- vector_desymbolize (fst (fst p)) table ;;
                      th <- desymbolizeThreshold table (snd (fst p)) ;;
                      Ret (Entry3 v th (snd p))) (planes t)
              = Ret (as_entry <$> planes t)).
  { induction H as [|[[v th] c] ps [Hv Hs] _ IH]; [reflexivity|].
    rewrite fmap_cons. cbn [forM fst snd]. cbn [fst snd] in Hv, Hs.
    rewrite Hv. cbn [bind].
    rewrite (desymbolizeThreshold_stays table th Hs).
    cbn [bind]. rewrite IH. reflexivity. }
  rewrite E. cbn [bind __init__]. now rewrite forM_as_entry.
Qed.

(** *** Parsing *)

Lemma forM_parse_node_wrong_tag (children : list Node) (tag : string)
    (a : gmap string string) (c : list Node) :
  In (Element tag a c) children -> tag <> "vector" ->
  exists e, forM parse_node children = Raise e.
Proof.
  intros Hin Htag. induction children as [|n ns IH]; [destruct Hin|].
  cbn [forM]. destruct Hin as [->|Hin].
  - cbn [parse_node]. destruct (decide (tag = "vector")) as [Hd|Hd]; [contradiction|].
    eexists. reflexivity.
  - destruct (parse_node n) as [o|e]; cbn [bind]; [|eexists; reflexivity].
    destruct (IH Hin) as [e ->]. eexists. reflexivity.
Qed.

(** X15: [parse] returns nothing for a malformed tree: it raises
    [AssertionError] when the root is not a [plane] element,
    [AttributeError] when the root is not an element, and it raises
    whenever one of the children is an element that is not a [vector]. *)
Theorem X15_parse_rejects_malformed (root : string)
    (attrs : gmap string string) (children : list Node) :
  (root <> "plane" ->
   parse (Element root attrs children) = Raise AssertionError) /\
  parse OtherNode = Raise AttributeError /\
  (forall tag a c, In (Element tag a c) children -> tag <> "vector" ->
     exists e, parse (Element "plane" attrs children) = Raise e).
Proof.
  split; [|split].
  - intros H. cbn [parse]. destruct (decide (root = "plane")) as [Hd|Hd]; [contradiction|].
    reflexivity.
  - reflexivity.
  - intros tag a c Hin Htag. cbn [parse].
    destruct (decide ("plane" = "plane")) as [Hd|Hd]; [|contradiction].
    destruct (forM_parse_node_wrong_tag children tag a c Hin Htag) as [x ->].
    eexists. reflexivity.
Qed.

Lemma parse_children_other (ns : list Node) :
  (ps <- forM parse_node (OtherNode :: ns) ;; Ret (omap id ps)) =
  (ps <- forM parse_node ns ;; Ret (omap id ps)).
Proof.
  cbn [forM parse_node bind].
  destruct (forM parse_node ns) as [ps|e]; reflexivity.
Qed.

Lemma parse_node_element (tag : string) (a : gmap string string)
    (c : list Node) (o : option Plane) :
  parse_node (Element tag a c) = Ret o -> exists p, o = Some p.
Proof.
  cbn [parse_node]. destruct (decide (tag = "vector")) as [Hd|Hd]; [|discriminate].
  destruct (vector_parse _) as [v|e]; cbn [bind]; [|discriminate].
  destruct (py_float _).
  - cbn [bind]. intros [= <-]. eexists. reflexivity.
  - destruct (py_eval _ None); cbn [bind]; [|discriminate].
    intros [= <-]. eexists. reflexivity.
Qed.

Lemma parse_children_element (n : Node) (ns : list Node) :
  is_element n = true ->
  (ps <- forM parse_node (n :: ns) ;; Ret (omap id ps)) =
  (o <- parse_node n ;;
   rest <- (ps <- forM parse_node ns ;; Ret (omap id ps)) ;;
   Ret (from_option (fun p => [p]) [] o ++ rest)%list).
Proof.
  intros Hn. cbn [forM].
  destruct (parse_node n) as [o|e] eqn:E; cbn [bind]; [|reflexivity].
  destruct (forM parse_node ns) as [ps|e]; cbn [bind]; [|reflexivity].
  destruct o; reflexivity.
Qed.

(** X16: [parse] looks at element children only: the other nodes among the
    children (text, comments) change nothing, and when it returns there is
    one triple per element child. *)
Theorem X16_parse_skips_other_nodes (attrs : gmap string string)
    (children : list Node) :
  parse (Element "plane" attrs children)
  = parse (Element "plane" attrs (List.filter is_element children)) /\
  (forall ps, parse (Element "plane" attrs children) = Ret ps ->
     length ps = length (List.filter is_element children)).
Proof.
  cbn [parse]. destruct (decide ("plane" = "plane")) as [Hd|Hd]; [|contradiction].
  split.
  - induction children as [|n ns IH]; [reflexivity|].
    destruct n as [tag a c|].
    + cbn [List.filter is_element].
      rewrite !(parse_children_element (Element tag a c)) by reflexivity.
      now rewrite IH.
    + cbn [List.filter is_element]. now rewrite parse_children_other.
  - induction children as [|n ns IH]; intros ps.
    + intros [= <-]. reflexivity.
    + destruct n as [tag a c|].
      * rewrite parse_children_element by reflexivity.
        cbn [List.filter is_element length].
        destruct (parse_node _) as [o|e] eqn:E; cbn [bind]; [|discriminate].
        apply parse_node_element in E as [p ->].
        destruct (forM parse_node ns) as [qs|e]; cbn [bind]; [|discriminate].
        intros [= <-]. cbn [from_option app length]. f_equal.
        now apply IH.
      * rewrite parse_children_other. cbn [List.filter is_element].
        apply IH.
Qed.

(** X17: a triple whose marker is a string comes back from the serialized
    node with the marker [int] makes of that string when it reads as an
    integer, and with the string itself otherwise; the vector and a numeric
    threshold come back as they are when they survive the serialization
    primitives. *)
Theorem X17_string_marker_roundtrip (v : KeyedVector) (q : Q) (s : string) :
  py_float (py_str (TNum q)) = Some q ->
  is_vector_element (vector_xml v) = true ->
  vector_parse (xml_plane (v, TNum q, CStr s)) = Ret v ->
  parse_node (xml_plane (v, TNum q, CStr s))
  = Ret (Some (v, TNum q,
               match py_int s with Some z => CInt z | None => CStr s end)).
Proof.
  intros Hq Hel. cbn [xml_plane str_comparison].
  destruct (vector_xml v) as [tag attrs ch|]; [|discriminate].
  simpl in Hel. apply bool_decide_eq_true in Hel. subst tag.
  cbn [setAttribute parse_node].
  destruct (decide ("vector" = "vector")) as [Hd|Hd]; [|contradiction].
  intros ->. cbn [bind]. unfold getAttribute.
  rewrite lookup_insert_ne by discriminate.
  rewrite !lookup_insert_eq. cbn [default from_option id]. rewrite Hq.
  cbn [bind]. destruct (py_int s); reflexivity.
Qed.

(** *** Sums and keys *)

Lemma all_keys_from (acc : gset string) (ps : list Plane) :
  foldl (fun acc (p : Plane) => acc ∪ dom (weights (fst (fst p)))) acc ps
  = acc ∪ all_keys ps.
Proof.
  unfold all_keys. revert acc.
  induction ps as [|p ps IH]; intros acc; cbn [foldl].
  - now rewrite union_empty_r_L.
  - rewrite IH, (IH (∅ ∪ _)), union_empty_l_L, (assoc_L (∪)). reflexivity.
Qed.

Lemma all_keys_app (ps qs : list Plane) :
  all_keys (ps ++ qs) = all_keys ps ∪ all_keys qs.
Proof.
  unfold all_keys at 1. rewrite foldl_app.
  fold (all_keys ps). apply all_keys_from.
Qed.

Lemma add_returns (p q r : KeyedPlane) :
  __add__ p q = Ret r ->
  isConjunction p = isConjunction q /\
  r = set_isConjunction (isConjunction p)
        (finish_init (planes p ++ planes q)).
Proof.
  unfold __add__.
  destruct (decide (isConjunction p = isConjunction q)); [|discriminate].
  cbn [__init__]. rewrite forM_as_entry. cbn [bind]. intros [= <-]. auto.
Qed.

Lemma add_flags_agree (p q : KeyedPlane) :
  isConjunction p = isConjunction q ->
  __add__ p q
  = Ret (set_isConjunction (isConjunction p)
           (finish_init (planes p ++ planes q))).
Proof.
  intros H. unfold __add__.
  destruct (decide (isConjunction p = isConjunction q)); [|contradiction].
  cbn [__init__]. rewrite forM_as_entry. reflexivity.
Qed.

(** X18: sums associate: when [p + q] and [q + r] are defined, [(p + q) + r]
    and [p + (q + r)] are defined and are the same instance. *)
Theorem X18_add_associative (p q r pq qr : KeyedPlane) :
  __add__ p q = Ret pq -> __add__ q r = Ret qr ->
  exists s, __add__ pq r = Ret s /\ __add__ p qr = Ret s.
Proof.
  intros Hpq Hqr.
  apply add_returns in Hpq as [Hf1 ->]. apply add_returns in Hqr as [Hf2 ->].
  eexists. split.
  - rewrite add_flags_agree by (cbn; congruence). reflexivity.
  - rewrite add_flags_agree by (cbn; congruence).
    cbn [planes isConjunction set_isConjunction finish_init].
    now rewrite app_assoc.
Qed.

(** X19: on instances whose key cache is empty or up to date, the keys of a
    sum are the keys of the left operand together with those of the right
    one. *)
Theorem X19_keys_of_sum (p q r : KeyedPlane) :
  cache_fresh p -> cache_fresh q -> __add__ p q = Ret r ->
  fst (keys r) = fst (keys p) ∪ fst (keys q).
Proof.
  intros Hp Hq Hr. apply add_returns in Hr as [_ ->].
  assert (K : forall t, cache_fresh t -> fst (keys t) = all_keys (planes t)).
  { intros t [H|H]; unfold keys; now rewrite H. }
  rewrite (K p Hp), (K q Hq). cbn. apply all_keys_app.
Qed.

(** X20: [keys] computes the union of the keys of the vectors once: on an
    instance with a fresh cache it returns that union, leaves the triples
    and the flag alone and the cache filled, and a second call returns the
    same set and changes nothing more.  What the constructor returns has a
    fresh cache. *)
Theorem X20_keys_cached (t : KeyedPlane) :
  cache_fresh t ->
  fst (keys t) = all_keys (planes t) /\
  planes (snd (keys t)) = planes t /\
  isConjunction (snd (keys t)) = isConjunction t /\
  _keys (snd (keys t)) = Some (all_keys (planes t)) /\
  keys (snd (keys t)) = (fst (keys t), snd (keys t)) /\
  (forall arg t0, __init__ arg = Ret t0 -> cache_fresh t0).
Proof.
  intros [H|H]; unfold keys; rewrite H; cbn [fst snd]; repeat split;
    try (cbn; assumption);
    try (intros arg t0 H0; apply init_returns_finish in H0 as [ps ->];
         now left).
  cbn. now rewrite H.
Qed.

(** *** Scaling *)

(** X21: [scale] returns a test on no instance.  It raises
    [AttributeError] on every instance the constructor builds (it reads
    [self.vector], which [__init__] does not assign), and on an instance
    that has the attributes [vector] and [threshold] it raises [NameError]
    at the assertion on the constant weight, whose name [CONSTANT] the
    module does not bind. *)
Theorem X21_scale_preconditions (conj : bool) (ps : list Plane)
    (table : gmap string (Q * Q)) :
  scale (set_isConjunction conj (finish_init ps)) table
  = SRaise AttributeError /\
  (forall self v th,
     attr_vector self = Some v -> attr_threshold self = Some th ->
     scale self table = SRaise NameError) /\
  (forall self,
     exists e, scale self table = SRaise e /\
               (e = AttributeError \/ e = NameError)).
Proof.
  split; [reflexivity|]. split.
  - intros self v th Hv Hth. unfold scale, getattr. now rewrite Hv, Hth.
  - intros self. unfold scale, getattr.
    destruct (attr_vector self); [|eauto].
    destruct (attr_threshold self); eauto.
Qed.


(** *** Rows over several keys *)

Lemma lookup_foldl_insert (c : Q) (l : list string) (m : gmap string Q)
    (k : string) :
  foldl (fun w key => <[ key := c ]> w) m l !! k
  = if decide (k ∈ l) then Some c else m !! k.
Proof.
  revert m. induction l as [|x l IH]; intros m; cbn [foldl].
  - destruct (decide (k ∈ [])) as [H|]; [|reflexivity].
    now apply not_elem_of_nil in H.
  - rewrite IH. destruct (decide (k ∈ l)) as [Hl|Hl].
    + destruct (decide (k ∈ x :: l)) as [|Hn]; [reflexivity|].
      exfalso. apply Hn. now right.
    + destruct (decide (k = x)) as [->|Hne].
      * rewrite lookup_insert_eq.
        destruct (decide (x ∈ x :: l)) as [|Hn]; [reflexivity|].
        exfalso. apply Hn. now left.
      * rewrite lookup_insert_ne by congruence.
        destruct (decide (k ∈ x :: l)) as [Hx|]; [|reflexivity].
        apply elem_of_cons in Hx as [?|?]; congruence.
Qed.

(** X25: the row of [andRow] is one ABOVE triple whose vector gives weight
    -1 to every key of [falseKeys], weight 1 to every other key of
    [trueKeys] and no weight to any other key, and whose threshold is the
    length of [trueKeys] (repetitions and keys also in [falseKeys]
    included) minus one half. *)
Theorem X25_andRow_weights (trueKeys falseKeys : list string) :
  exists w : gmap string Q,
    andRow trueKeys falseKeys
    = finish_init
        [(new_vector w,
          TNum (inject_Z (Z.of_nat (length trueKeys)) - (1 # 2)),
          CInt 1)] /\
    forall k,
      w !! k =
      if decide (k ∈ falseKeys) then Some (-1)%Q
      else if decide (k ∈ trueKeys) then Some 1%Q
      else None.
Proof.
  eexists. split; [reflexivity|]. intros k.
  rewrite !lookup_foldl_insert. now rewrite lookup_empty.
Qed.

(** X26: in the rows built from two keys ([differenceRow],
    [greaterThanRow], [equalFeatureRow]) the second key has weight -1 and
    the first one weight 1 when it is another key; with the same key twice
    the vector is that single key with weight -1. *)
Theorem X26_two_key_rows (key1 key2 : string) (T : Threshold) :
  let w := <[ key2 := (-1)%Q ]> ({[ key1 := 1%Q ]} : gmap string Q) in
  differenceRow key1 key2 T = finish_init [(new_vector w, T, CInt 1)] /\
  greaterThanRow key1 key2 = finish_init [(new_vector w, TNum 0, CInt 1)] /\
  equalFeatureRow key1 key2 = finish_init [(new_vector w, TNum 0, CInt 0)] /\
  w !! key2 = Some (-1)%Q /\
  (key1 <> key2 -> w !! key1 = Some 1%Q) /\
  (key1 = key2 -> w = {[ key1 := (-1)%Q ]}).
Proof.
  intros w. repeat split.
  - apply lookup_insert_eq.
  - intros H. unfold w. rewrite lookup_insert_ne by congruence.
    apply lookup_singleton_eq.
  - intros <-. unfold w. rewrite insert_singleton.
    now destruct (decide (key1 = key1)).
Qed.

(** *** Tense *)

Lemma foldl_rewrite_at (f : KeyedVector -> KeyedVector)
    (rts : list RefTriple) (h : Store) (r : Ref) :
  foldl (fun h' (rt : RefTriple) => rewrite_at f (fst (fst rt)) h') h rts r
  = Nat.iter (holders r rts) f (h r).
Proof.
  revert h. induction rts as [|a rts IH]; intros h; [reflexivity|].
  cbn [foldl]. rewrite IH. unfold holders. rewrite filter_cons.
  unfold rewrite_at.
  destruct (decide (r = fst (fst a))) as [->|Hne].
  - destruct (decide (fst (fst a) = fst (fst a))); [|contradiction].
    cbn [length]. now rewrite Nat.iter_succ_r.
  - destruct (decide (fst (fst a) = r)); [congruence|reflexivity].
Qed.

Lemma holders_positive (r : Ref) (rts : list RefTriple) :
  holders r rts <> 0%nat <-> exists rt, rt ∈ rts /\ fst (fst rt) = r.
Proof.
  unfold holders. split.
  - destruct (filter _ rts) as [|rt l] eqn:E; [contradiction|]. intros _.
    assert (H : rt ∈ filter (fun rt : RefTriple => fst (fst rt) = r) rts)
      by (rewrite E; now left).
    apply list_elem_of_filter in H as [? ?]. eauto.
  - intros (rt & Hin & Hr) H.
    assert (H' : rt ∈ filter (fun rt : RefTriple => fst (fst rt) = r) rts)
      by now apply list_elem_of_filter.
    destruct (filter _ rts); [|discriminate]. now apply not_elem_of_nil in H'.
Qed.

Lemma iter_idempotent (f : KeyedVector -> KeyedVector) (x : KeyedVector)
    (n : nat) :
  f (f x) = f x -> n <> 0%nat -> Nat.iter n f x = f x.
Proof.
  intros Hf. destruct n as [|n]; [contradiction|]. intros _.
  induction n as [|n IH]; [reflexivity|].
  change (Nat.iter (S (S n)) f x) with (f (Nat.iter (S n) f x)).
  now rewrite IH.
Qed.

(** X27: [changeTense] applies the vector's rewriting to the object behind
    every triple, once per triple that holds it, with the given key list or
    else the keys of the test; an object no triple of the test holds is
    left as it was.  The triples keep their references, thresholds and
    markers, the flag is kept, and both caches are emptied. *)
Theorem X27_changeTense_store (future : bool)
    (keyList : option (gset string)) (self : StoredPlane) (h : Store) :
  (forall r,
     fst (changeTense future keyList self h) r
     = Nat.iter (holders r (stored_planes self))
         (vector_changeTense future (tense_keys keyList self h)) (h r)) /\
  (forall r, holders r (stored_planes self) = 0%nat ->
     fst (changeTense future keyList self h) r = h r) /\
  stored_planes (snd (changeTense future keyList self h))
  = stored_planes self /\
  stored_isConjunction (snd (changeTense future keyList self h))
  = stored_isConjunction self /\
  stored_keys (snd (changeTense future keyList self h)) = None /\
  stored_string (snd (changeTense future keyList self h)) = None.
Proof.
  assert (H : forall r,
     fst (changeTense future keyList self h) r
     = Nat.iter (holders r (stored_planes self))
         (vector_changeTense future (tense_keys keyList self h)) (h r)).
  { intros r. unfold changeTense. cbn [fst]. apply foldl_rewrite_at. }
  split; [exact H|]. split; [|repeat split].
  intros r Hr. now rewrite H, Hr.
Qed.

(** X28: when rewriting twice gives what rewriting once gives on the
    vectors the test holds, then after [changeTense] every test reads, for
    each of its triples, the rewritten vector where the object is held by
    the test that was changed and the old vector elsewhere: so the test
    itself reads its own triples with rewritten vectors, and a test that
    shares vector objects with it is changed along.  The next call of
    [keys] on the test computes the keys of the rewritten vectors. *)
Theorem X28_changeTense_view (future : bool)
    (keyList : option (gset string)) (self other : StoredPlane)
    (h : Store) :
  (forall rt : RefTriple, rt ∈ stored_planes self ->
     vector_changeTense future (tense_keys keyList self h)
       (vector_changeTense future (tense_keys keyList self h)
          (h (fst (fst rt))))
     = vector_changeTense future (tense_keys keyList self h)
         (h (fst (fst rt)))) ->
  planes (view (fst (changeTense future keyList self h)) other)
  = (fun rt : RefTriple =>
       (if decide (holders (fst (fst rt)) (stored_planes self) = 0%nat)
        then h (fst (fst rt))
        else vector_changeTense future (tense_keys keyList self h)
               (h (fst (fst rt))),
        snd (fst rt), snd rt)) <$> stored_planes other /\
  planes (view (fst (changeTense future keyList self h))
            (snd (changeTense future keyList self h)))
  = (fun p : Plane =>
       (vector_changeTense future (tense_keys keyList self h) (fst (fst p)),
        snd (fst p), snd p)) <$> planes (view h self) /\
  fst (keys (view (fst (changeTense future keyList self h))
               (snd (changeTense future keyList self h))))
  = all_keys
      ((fun p : Plane =>
          (vector_changeTense future (tense_keys keyList self h)
             (fst (fst p)), snd (fst p), snd p)) <$> planes (view h self)).
Proof.
  intros Hid.
  set (f := vector_changeTense future (tense_keys keyList self h)) in *.
  assert (Hh : forall r,
     fst (changeTense future keyList self h) r
     = if decide (holders r (stored_planes self) = 0%nat)
       then h r else f (h r)).
  { intros r. unfold changeTense. cbn [fst]. rewrite foldl_rewrite_at.
    fold f. destruct (decide _) as [->|Hn]; [reflexivity|].
    apply iter_idempotent; [|exact Hn].
    apply holders_positive in Hn as (rt & Hin & <-). now apply Hid. }
  assert (Hself : planes (view (fst (changeTense future keyList self h))
                            (snd (changeTense future keyList self h)))
                  = (fun p : Plane => (f (fst (fst p)), snd (fst p), snd p))
                      <$> planes (view h self)).
  { cbn [view planes].
    change (stored_planes (snd (changeTense future keyList self h)))
      with (stored_planes self).
    rewrite <- list_fmap_compose. apply Forall_fmap_ext, Forall_forall.
    intros rt Hrt. rewrite Hh. unfold compose. cbn [fst snd].
    destruct (decide _) as [H0|]; [|reflexivity].
    exfalso. revert H0. apply holders_positive. eauto. }
  split; [|split].
  - cbn [view planes]. apply Forall_fmap_ext, Forall_forall.
    intros rt _. cbn beta. now rewrite Hh.
  - exact Hself.
  - rewrite <- Hself. reflexivity.
Qed.

End Source.


Arguments evaluate {State} mul self vector.

(** ** Concrete scenarios and the claims that rest on them *)

Lemma dot_singleton (e : Q) (k : string) (w x : Q) :
  dot {| weights := {[ k := w ]}; epsilon := e |} (state1 k x)
  = (0 + w * x)%Q.
Proof.
  unfold dot, state1. cbn [weights].
  rewrite map_fold_singleton, lookup_singleton_eq. reflexivity.
Qed.

(** A row of [thresholdRow] against the state [{key: x}]. *)
Lemma evaluate_thresholdRow_state (e : Q) (k : string) (T x : Q) :
  evaluate dot_total (thresholdRow e k (TNum T)) (ArgVector (state1 k x))
  = Ret (Qltb T (0 + 1 * x + e)).
Proof.
  unfold evaluate, thresholdRow, init_vector, finish_init, new_vector.
  cbn [planes isConjunction evaluate_loop fst snd default].
  unfold dot_total. rewrite dot_singleton.
  cbn [collapse bind test_plane DEFAULT_COMPARISON gt_zero Z.ltb Z.compare
       num_gt epsilon].
  unfold id, num_gt. destruct (Qltb T _); reflexivity.
Qed.

(** C1, as the code has it: for a conjunctive single-triple ABOVE test with
    threshold [T] over a vector with epsilon [e], [evaluate] on a scalar
    [x] returns the truth value of the test the code computes,
    [x + e > T].  On [T] itself it therefore returns true whenever
    [T + e > T], and on [T + e + d] whenever [T + e + d + e > T].  With an
    epsilon of 10^-8, [thresholdRow "x" 5] is true against [{x: 7}] and
    against [{x: 5}]. *)
Theorem C1_above_tests_total_plus_epsilon
    (State : Type) (mul : KeyedVector -> State -> Total)
    (w : gmap string Q) (e T : Q) :
  let t := init_vector (new_vector e w) (Some (TNum T)) (Some (CInt 1)) in
  isConjunction t = true /\
  (forall x : Q, exists b : bool,
     evaluate mul t (ArgFloat x) = Ret b /\
     (b = true <-> (x + e > T)%Q)) /\
  ((T + e > T)%Q -> evaluate mul t (ArgFloat T) = Ret true) /\
  (forall d : Q, (T + e + d + e > T)%Q ->
     evaluate mul t (ArgFloat (T + e + d)) = Ret true) /\
  evaluate dot_total (thresholdRow eps8 "x" (TNum 5))
    (ArgVector (state1 "x" 7)) = Ret true /\
  evaluate dot_total (thresholdRow eps8 "x" (TNum 5))
    (ArgVector (state1 "x" 5)) = Ret true.
Proof.
  intros t.
  assert (Hev : forall x, evaluate mul t (ArgFloat x) = Ret (Qltb T (x + e))).
  { intros x. exact (evaluate_above_float State mul true (new_vector e w) T x). }
  split; [reflexivity|]. split; [|split; [|split; [|split]]].
  - intros x. exists (Qltb T (x + e)). split; [apply Hev|apply Qltb_lt].
  - intros H. rewrite Hev. f_equal. now apply Qltb_lt.
  - intros d H. rewrite Hev. f_equal. now apply Qltb_lt.
  - rewrite evaluate_thresholdRow_state. reflexivity.
  - rewrite evaluate_thresholdRow_state. reflexivity.
Qed.

(** Every marker that is an [int] or a [str] takes one of the first three
    branches of [evaluate]: the branch that raises [ValueError] is not
    reached by them. *)
Lemma marker_always_classified (c : Comparison) :
  gt_zero c || lt_zero c || eq_zero c = true.
Proof.
  destruct c as [z|s]; [|reflexivity]. simpl.
  destruct (Z.ltb_spec 0 z), (Z.ltb_spec z 0), (Z.eqb_spec z 0);
    simpl; try reflexivity; lia.
Qed.

(** C4, on the code: the row of [caseRow], whose marker is 'switch', is
    tested as an ABOVE triple against its threshold 0, and [evaluate]
    returns that boolean; against [{x: 3}] it returns [True], not 3. *)
Theorem C4_switch_marker_tested_as_above
    (State : Type) (mul : KeyedVector -> State -> Total)
    (e : Q) (key : string) (x : Q) :
  evaluate mul (caseRow e key) (ArgFloat x) = Ret (Qltb 0 (x + e)) /\
  evaluate dot_total (caseRow eps8 "x") (ArgVector (state1 "x" 3)) = Ret true.
Proof.
  split.
  - unfold caseRow, init_vector. cbn [default].
    change (finish_init ?l) with (set_isConjunction true (finish_init l)).
    rewrite evaluate_single_float. simpl. now rewrite default_verdict.
  - vm_compute. reflexivity.
Qed.

(** *** Instances of the claims *)

Local Abbreviation x1 := (new_vector eps8 {[ "x" := 1%Q ]}).
Local Abbreviation init_dec :=
  (__init__ unit (vector_parse_dec eps8) eval_unbound float_dec int_dec).
Local Abbreviation add_dec :=
  (__add__ unit (vector_parse_dec eps8) eval_unbound float_dec int_dec).
Local Abbreviation xml_dec := (__xml__ vector_xml_dec str_dec str_int_dec).
Local Abbreviation serializable_dec :=
  (serializable vector_xml_dec (vector_parse_dec eps8) str_dec str_int_dec
     float_dec int_dec).
Local Abbreviation desymbolize_dec :=
  (desymbolize unit desymbolize_id (vector_parse_dec eps8) eval_unbound
     float_dec int_dec).
(** x > 5 or x > 10 *)
Local Abbreviation either_bound :=
  (set_isConjunction false
     (finish_init [(x1, TNum 5, CInt 1); (x1, TNum 10, CInt 1)])).
(** x > 5 and x < 10 *)
Local Abbreviation both_bounds :=
  (finish_init [(x1, TNum 5, CInt 1); (x1, TNum 10, CInt (-1))]).

(** [thresholdRow "x" 5] with a tolerance of 10^-8 passes at the boundary,
    on the state [{x: 5}] and on the float 5. *)
Lemma C1_boundary_counterexample :
  evaluate dot_total (thresholdRow eps8 "x" (TNum 5))
    (ArgVector (state1 "x" 5)) = Ret true /\
  evaluate dot_total (thresholdRow eps8 "x" (TNum 5))
    (ArgVector (state1 "x" 5)) <> Ret false /\
  evaluate dot_total (thresholdRow eps8 "x" (TNum 5)) (ArgFloat 5)
  <> Ret false.
Proof.
  split; [vm_compute; reflexivity|]. split; vm_compute; discriminate.
Qed.

Lemma C1_above_witness :
  (5 + eps8 > 5)%Q /\
  evaluate dot_total
    (init_vector x1 (Some (TNum 5)) (Some (CInt 1))) (ArgFloat 5) = Ret true.
Proof.
  assert (H : (5 + eps8 > 5)%Q) by reflexivity.
  split; [exact H|].
  pose proof (C1_above_tests_total_plus_epsilon KeyedVector dot_total
                {[ "x" := 1%Q ]} eps8 5) as H0.
  cbv zeta in H0. destruct H0 as (_ & _ & Hb & _).
  exact (Hb H).
Defined.

(** The constructor accepts the empty sequence. *)
Lemma C3_empty_sequence_counterexample :
  exists t, init_dec (FromList []) = Ret t /\ planes t = [].
Proof. exists (finish_init []). split; reflexivity. Qed.

Lemma C3_init_witness :
  init_dec (FromList [Entry2 x1 (TNum 5); Entry0]) = Raise ValueError /\
  exists t, init_dec (FromList [Entry1 x1; Entry2 x1 (TNum 5)]) = Ret t /\
            length (planes t) = 2%nat.
Proof.
  split.
  - apply (C3_init_rejects_entries_not_sequences unit (vector_parse_dec eps8)
             eval_unbound float_dec int_dec [Entry2 x1 (TNum 5); Entry0]).
    apply Exists_cons_tl, Exists_cons_hd. reflexivity.
  - apply (C3_init_rejects_entries_not_sequences unit (vector_parse_dec eps8)
             eval_unbound float_dec int_dec [Entry1 x1; Entry2 x1 (TNum 5)]).
    repeat constructor.
Defined.

Lemma C5_add_witness :
  add_dec both_bounds either_bound = Raise AssertionError /\
  exists r, add_dec both_bounds both_bounds = Ret r /\
            planes r = (planes both_bounds ++ planes both_bounds)%list /\
            isConjunction r = true /\ isConjunction r = true.
Proof.
  split.
  - apply (C5_add_concatenates_or_fails unit (vector_parse_dec eps8)
             eval_unbound float_dec int_dec both_bounds either_bound).
    simpl. discriminate.
  - apply (C5_add_concatenates_or_fails unit (vector_parse_dec eps8)
             eval_unbound float_dec int_dec both_bounds both_bounds).
    reflexivity.
Defined.

(** A disjunctive test comes back conjunctive and evaluates differently:
    x > 5 or x > 10 holds at 7, x > 5 and x > 10 does not. *)
Lemma C6_disjunction_counterexample :
  exists t',
    init_dec (FromNode (documentElement (xml_dec either_bound))) = Ret t' /\
    Forall serializable_dec (planes either_bound) /\
    evaluate dot_total either_bound (ArgVector (state1 "x" 7)) = Ret true /\
    evaluate dot_total t' (ArgVector (state1 "x" 7)) = Ret false.
Proof.
  eexists. split; [vm_compute; reflexivity|].
  split; [|split; vm_compute; reflexivity].
  repeat constructor; vm_compute; reflexivity.
Qed.

Lemma C6_roundtrip_witness :
  Forall serializable_dec (planes both_bounds) /\
  exists t',
    init_dec (FromNode (documentElement (xml_dec both_bounds))) = Ret t' /\
    planes t' = planes both_bounds /\
    isConjunction t' = true /\
    (isConjunction both_bounds = true ->
     forall arg : Arg KeyedVector,
       evaluate dot_total t' arg = evaluate dot_total both_bounds arg).
Proof.
  assert (H : Forall serializable_dec (planes both_bounds)).
  { repeat constructor; vm_compute; reflexivity. }
  split; [exact H|].
  exact (C6_roundtrip_keeps_triples_not_flag KeyedVector dot_total unit
           vector_xml_dec (vector_parse_dec eps8) eval_unbound str_dec
           str_int_dec float_dec int_dec both_bounds H).
Defined.

Lemma C10_desymbolize_witness :
  exists r, desymbolize_dec either_bound tt = Ret r /\
            isConjunction either_bound = false /\
            isConjunction r = true.
Proof.
  eexists. split; [vm_compute; reflexivity|]. split; [reflexivity|].
  apply (C10_desymbolize_resets_flag unit desymbolize_id
           (vector_parse_dec eps8) eval_unbound float_dec int_dec
           either_bound _ tt).
  vm_compute. reflexivity.
Defined.

Lemma C9_compare_witness :
  init_dec (FromVector x1 (Some (TNum 5)) None)
  = Ret (thresholdRow eps8 "x" (TNum 5)) /\
  init_dec (FromVector (new_vector eps8 {[ "y" := 1%Q ]}) (Some (TNum 5)) None)
  = Ret (thresholdRow eps8 "y" (TNum 5)) /\
  compare (fun _ _ => false) (thresholdRow eps8 "x" (TNum 5))
    (thresholdRow eps8 "y" (TNum 5)) true
  = Raise AttributeError.
Proof.
  split; [reflexivity|]. split; [reflexivity|].
  exact (C9_compare_raises_on_constructed (fun _ _ => false) unit
           (vector_parse_dec eps8) eval_unbound float_dec int_dec
           (FromVector x1 (Some (TNum 5)) None)
           (FromVector (new_vector eps8 {[ "y" := 1%Q ]}) (Some (TNum 5)) None)
           _ _ true true true eq_refl eq_refl).
Defined.

Arguments SRet {A} a.
Arguments SRaise {A} e.
Arguments SZeroDivisionError {A}.

(** *** Instances of the further properties *)

Local Abbreviation y1 := (new_vector eps8 {[ "y" := 1%Q ]}).
Local Abbreviation with_attributes v th c :=
  {| planes := []; _string := None; _keys := None; isConjunction := true;
     attr_vector := Some v; attr_threshold := Some th;
     attr_comparison := Some c |}.
Local Abbreviation scale_dec :=
  (scale unit (vector_parse_dec eps8) eval_unbound float_dec int_dec).

Lemma X1_evaluate_add_witness :
  add_dec both_bounds (thresholdRow eps8 "x" (TNum 20))
  = Ret (finish_init
           (planes both_bounds ++ [(x1, TNum 20, CInt 1)])) /\
  evaluate dot_total
    (finish_init (planes both_bounds ++ [(x1, TNum 20, CInt 1)]))
    (ArgFloat 7) = Ret false.
Proof.
  assert (H : add_dec both_bounds (thresholdRow eps8 "x" (TNum 20))
              = Ret (finish_init
                       (planes both_bounds ++ [(x1, TNum 20, CInt 1)])))
    by reflexivity.
  split; [exact H|].
  exact (X1_evaluate_add KeyedVector dot_total unit (vector_parse_dec eps8)
           eval_unbound float_dec int_dec _ _ _ (ArgFloat 7) H).
Defined.

Lemma X2_evaluate_short_circuit_witness :
  evaluate dot_total
    (finish_init
       [(x1, TNum 5, CInt 1); (x1, TNum 10, CInt 1);
        (x1, TStr "limit", CInt 0)])
    (ArgFloat 7) = Ret false.
Proof.
  exact (X2_evaluate_short_circuit KeyedVector dot_total true (ArgFloat 7)
           [(x1, TNum 5, CInt 1)] [(x1, TStr "limit", CInt 0)]
           (x1, TNum 10, CInt 1) eq_refl eq_refl).
Defined.

Lemma X3_evaluate_empty_test_witness :
  evaluate dot_total (finish_init []) (ArgVector (state1 "x" 7)) = Ret true.
Proof.
  exact (proj1 (X3_evaluate_empty_test KeyedVector dot_total unit
                  (vector_parse_dec eps8) eval_unbound float_dec int_dec
                  (finish_init []) (ArgVector (state1 "x" 7)) eq_refl)).
Defined.

Lemma X4_evaluate_raises_only_witness :
  evaluate dot_total (init_vector x1 (Some (TList [])) (Some (CInt 0)))
    (ArgFloat 7) = Raise TypeError /\
  (TypeError = AssertionError \/ TypeError = TypeError).
Proof.
  assert (H : evaluate dot_total
                (init_vector x1 (Some (TList [])) (Some (CInt 0)))
                (ArgFloat 7) = Raise TypeError) by reflexivity.
  split; [exact H|].
  exact (proj1 (X4_evaluate_raises_only KeyedVector dot_total _ _ _ H)).
Defined.

Lemma X5_evaluate_numeric_returns_witness :
  exists b : bool, evaluate dot_total both_bounds (ArgFloat 7) = Ret b.
Proof.
  apply (X5_evaluate_numeric_returns KeyedVector dot_total both_bounds 7%Q).
  repeat constructor.
Defined.

Lemma X7_equal_list_witness :
  evaluate dot_total (init_vector x1 (Some (TList [])) (Some (CInt 0)))
    (ArgFloat 7) = Raise TypeError /\
  exists b : bool,
    evaluate dot_total
      (init_vector x1 (Some (TList [TNum 3; TNum 7])) (Some (CInt 0)))
      (ArgFloat 7) = Ret b /\
    (b = true <-> Exists (fun q => (Qabs (7 - q) < eps8)%Q) [3; 7]%Q).
Proof.
  split.
  - exact (proj1 (X7_equal_list KeyedVector dot_total true x1 [] 7%Q) eq_refl).
  - apply (proj2 (X7_equal_list KeyedVector dot_total true x1 [3; 7]%Q 7%Q)).
    discriminate.
Defined.

Lemma X10_evaluate_distribution_witness :
  evaluate dist_total (finish_init [(x1, TNum 5, CInt 1)])
    (ArgVector [(7, 1 # 2); (3, 1 # 2)]%Q) = Raise AssertionError /\
  evaluate dist_total (finish_init [(x1, TNum 5, CInt 1)])
    (ArgVector [(7, 1 # 2)]%Q)
  = evaluate dist_total (finish_init [(x1, TNum 5, CInt 1)]) (ArgFloat 7).
Proof.
  split.
  - apply (X10_evaluate_distribution Distribution dist_total true x1
             (TNum 5) (CInt 1) [] _ _ eq_refl).
    simpl. discriminate.
  - exact (proj2 (X10_evaluate_distribution Distribution dist_total true x1
                    (TNum 5) (CInt 1) [] [(7, 1 # 2)]%Q _ eq_refl)
             7%Q (1 # 2)%Q eq_refl).
Defined.

Lemma X11_desymbolizeThreshold_witness :
  desymbolizeThreshold unit eval_unbound tt
    (TList [TNum 1; TStr "limit"; TList [TStr "other"]])
  = Ret (TList [TNum 1; TStr "limit"; TList [TStr "other"]]).
Proof.
  apply (X11_desymbolizeThreshold_keeps_unresolved unit eval_unbound tt).
  repeat constructor.
Defined.

Lemma X12_desymbolizeThreshold_elementwise_witness :
  (exists l', TList [TNum 1; TStr "limit"] = TList l' /\
     length l' = 2%nat /\
     Forall2 (fun t t' => desymbolizeThreshold unit eval_unbound tt t = Ret t')
       [TNum 1; TStr "limit"] l') /\
  desymbolizeThreshold unit eval_invalid tt (TList [TStr "1 +"; TNum 1])
  = Raise SyntaxError.
Proof.
  split.
  - apply (proj1 (X12_desymbolizeThreshold_elementwise unit eval_unbound tt
                    [TNum 1; TStr "limit"])).
    reflexivity.
  - apply (proj2 (X12_desymbolizeThreshold_elementwise unit eval_invalid tt
                    [TNum 1])); [reflexivity|discriminate].
Defined.

Lemma X13_desymbolize_triples_witness :
  Forall2
    (fun p p' : Plane =>
       desymbolize_id (fst (fst p)) tt = Ret (fst (fst p')) /\
       desymbolizeThreshold unit eval_unbound tt (snd (fst p))
       = Ret (snd (fst p')) /\
       snd p' = snd p)
    (planes either_bound) (planes (finish_init (planes either_bound))) /\
  _keys (finish_init (planes either_bound)) = None /\
  _string (finish_init (planes either_bound)) = None.
Proof.
  apply (X13_desymbolize_triples unit desymbolize_id (vector_parse_dec eps8)
           eval_unbound float_dec int_dec either_bound _ tt).
  reflexivity.
Defined.

Lemma X14_desymbolize_nothing_to_resolve_witness :
  desymbolize_dec
    (set_isConjunction false (finish_init [(x1, TStr "limit", CInt 1)])) tt
  = Ret (finish_init [(x1, TStr "limit", CInt 1)]).
Proof.
  apply (X14_desymbolize_nothing_to_resolve unit desymbolize_id
           (vector_parse_dec eps8) eval_unbound float_dec int_dec
           (set_isConjunction false
              (finish_init [(x1, TStr "limit", CInt 1)])) tt).
  repeat constructor.
Defined.

Local Abbreviation parse_dec :=
  (parse unit (vector_parse_dec eps8) eval_unbound float_dec int_dec).
Local Abbreviation xml_plane_dec :=
  (xml_plane vector_xml_dec str_dec str_int_dec).

Lemma X15_parse_rejects_malformed_witness :
  parse_dec (Element "vector" ∅ []) = Raise AssertionError /\
  exists e,
    parse_dec (Element "plane" ∅ [OtherNode; Element "weights" ∅ []])
    = Raise e.
Proof.
  split.
  - apply (proj1 (X15_parse_rejects_malformed unit (vector_parse_dec eps8)
                    eval_unbound float_dec int_dec "vector" ∅ [])).
    discriminate.
  - apply (proj2 (proj2 (X15_parse_rejects_malformed unit
                           (vector_parse_dec eps8) eval_unbound float_dec
                           int_dec "plane" ∅
                           [OtherNode; Element "weights" ∅ []]))
             "weights" ∅ []).
    + right. left. reflexivity.
    + discriminate.
Defined.

Lemma X16_parse_skips_other_nodes_witness :
  parse_dec
    (Element "plane" ∅
       [OtherNode; xml_plane_dec (x1, TNum 5, CInt 1); OtherNode])
  = Ret [(x1, TNum 5, CInt 1)] /\
  length [(x1, TNum 5, CInt 1)]
  = length
      (List.filter is_element
         [OtherNode; xml_plane_dec (x1, TNum 5, CInt 1); OtherNode]).
Proof.
  assert (H : parse_dec
                (Element "plane" ∅
                   [OtherNode; xml_plane_dec (x1, TNum 5, CInt 1);
                    OtherNode])
              = Ret [(x1, TNum 5, CInt 1)]) by (vm_compute; reflexivity).
  split; [exact H|].
  exact (proj2 (X16_parse_skips_other_nodes unit (vector_parse_dec eps8)
                  eval_unbound float_dec int_dec ∅ _) _ H).
Defined.

Lemma X17_string_marker_roundtrip_witness :
  parse_node unit (vector_parse_dec eps8) eval_unbound float_dec int_dec
    (xml_plane_dec (x1, TNum 0, CStr "switch"))
  = Ret (Some (x1, TNum 0,
               match int_dec "switch" with
               | Some z => CInt z
               | None => CStr "switch"
               end)) /\
  int_dec "switch" = None /\
  parse_node unit (vector_parse_dec eps8) eval_unbound float_dec int_dec
    (xml_plane_dec (x1, TNum 0, CStr "-1"))
  = Ret (Some (x1, TNum 0,
               match int_dec "-1" with
               | Some z => CInt z
               | None => CStr "-1"
               end)) /\
  int_dec "-1" = Some (-1)%Z.
Proof.
  split; [|split; [vm_compute; reflexivity|split;
                                            [|vm_compute; reflexivity]]].
  - apply (X17_string_marker_roundtrip unit vector_xml_dec
             (vector_parse_dec eps8) eval_unbound str_dec str_int_dec
             float_dec int_dec x1 0%Q "switch"); vm_compute; reflexivity.
  - apply (X17_string_marker_roundtrip unit vector_xml_dec
             (vector_parse_dec eps8) eval_unbound str_dec str_int_dec
             float_dec int_dec x1 0%Q "-1"); vm_compute; reflexivity.
Defined.

Lemma X18_add_associative_witness :
  exists s,
    add_dec (finish_init (planes both_bounds ++ planes both_bounds))
      both_bounds = Ret s /\
    add_dec both_bounds
      (finish_init (planes both_bounds ++ planes both_bounds)) = Ret s.
Proof.
  apply (X18_add_associative unit (vector_parse_dec eps8) eval_unbound
           float_dec int_dec both_bounds both_bounds both_bounds);
    reflexivity.
Defined.

Lemma X19_keys_of_sum_witness :
  fst (keys (finish_init (planes both_bounds ++ [(y1, TNum 5, CInt 1)])))
  = fst (keys both_bounds) ∪ fst (keys (thresholdRow eps8 "y" (TNum 5))).
Proof.
  apply (X19_keys_of_sum unit (vector_parse_dec eps8) eval_unbound
           float_dec int_dec both_bounds (thresholdRow eps8 "y" (TNum 5))).
  - left. reflexivity.
  - left. reflexivity.
  - reflexivity.
Defined.

Lemma X20_keys_cached_witness :
  fst (keys both_bounds) = all_keys (planes both_bounds) /\
  keys (snd (keys both_bounds))
  = (fst (keys both_bounds), snd (keys both_bounds)).
Proof.
  destruct (X20_keys_cached unit (vector_parse_dec eps8) eval_unbound
              float_dec int_dec both_bounds (or_introl eq_refl))
    as (H1 & _ & _ & _ & H2 & _).
  split; [exact H1|exact H2].
Defined.

Lemma X21_scale_preconditions_witness :
  scale_dec (with_attributes x1 (TNum 5) (CInt 1)) {[ "x" := (0, 10)%Q ]}
  = SRaise NameError.
Proof.
  apply (proj1 (proj2 (X21_scale_preconditions unit (vector_parse_dec eps8)
                         eval_unbound float_dec int_dec true []
                         {[ "x" := (0, 10)%Q ]}))
           (with_attributes x1 (TNum 5) (CInt 1)) x1 (TNum 5));
    reflexivity.
Defined.


Lemma X26_two_key_rows_witness :
  <[ "x" := (-1)%Q ]> ({[ "x" := 1%Q ]} : gmap string Q)
  = {[ "x" := (-1)%Q ]}.
Proof.
  pose proof (X26_two_key_rows eps8 "x" "x" (TNum 0)) as H.
  cbv zeta in H. destruct H as (_ & _ & _ & _ & _ & H).
  exact (H eq_refl).
Defined.

Local Abbreviation two_on_one :=
  {| stored_planes :=
       [(1%positive, TNum 5, CInt 1); (1%positive, TNum 10, CInt (-1))];
     stored_string := None; stored_keys := None;
     stored_isConjunction := true |}.
Local Abbreviation one_and_two :=
  {| stored_planes :=
       [(1%positive, TNum 0, CInt 0); (2%positive, TNum 0, CInt 0)];
     stored_string := None; stored_keys := None;
     stored_isConjunction := true |}.

Lemma X27_changeTense_store_witness :
  fst (changeTense tense_dec true None two_on_one store_xy) 2%positive
  = store_xy 2%positive.
Proof.
  apply (proj1 (proj2 (X27_changeTense_store tense_dec true None two_on_one
                         store_xy))).
  reflexivity.
Defined.

Lemma X28_changeTense_view_witness :
  planes (view (fst (changeTense tense_dec true None two_on_one store_xy))
            one_and_two)
  = (fun rt : RefTriple =>
       (if decide (holders (fst (fst rt)) (stored_planes two_on_one) = 0%nat)
        then store_xy (fst (fst rt))
        else tense_dec true (tense_keys None two_on_one store_xy)
               (store_xy (fst (fst rt))),
        snd (fst rt), snd rt)) <$> stored_planes one_and_two.
Proof.
  apply (X28_changeTense_view tense_dec true None two_on_one one_and_two
           store_xy).
  apply Forall_forall. repeat constructor; vm_compute; reflexivity.
Defined.
